(** * Pizza ordering backend ([app.py]): pricing, cart store, mock payment
    authorisation and order ledger.

    The development is a shallow embedding of [app.py].  Python [float]s are
    IEEE-754 binary64 numbers and are modelled by Rocq's primitive floats
    (same format, round-to-nearest-even), [round(x, 2)] by its correctly
    rounded decimal algorithm, the module-level dictionaries [CARTS] and
    [ORDERS] by finite maps, and the request handlers by functions that take
    the store and return the response (or the raised [HTTPException])
    together with the store they leave behind. *)

From Stdlib Require Import ZArith Ascii String PrimFloat FloatOps SpecFloat.
From stdpp Require Import gmap strings list.

Set Warnings "-inexact-float,-clear-no-such-hyp".
Open Scope Z_scope.

(** ** Python primitives *)

Module Py.

(** *** Floats *)

(** [float(n)] for a Python [int]: the nearest binary64 number, ties to
    even.  (Python raises [OverflowError] beyond the binary64 range, where
    this gives an infinity; quantities and list lengths never get there.) *)
Definition float_of_int (n : Z) : float :=
  SF2Prim (binary_normalize prec emax n 0 false).

(** Nearest integer to [a / b] for [0 < b], ties to the even integer. *)
Definition div_half_even (a b : Z) : Z :=
  let q := a / b in
  match (2 * (a mod b)) ?= b with
  | Lt => q
  | Gt => q + 1
  | Eq => if Z.even q then q else q + 1
  end.

(** [|x| * 10^ndigits] rounded half-even to an integer, for the finite
    non-zero float of mantissa [m] and exponent [e] ([|x| = m * 2^e]).  This
    is the digit string CPython's [double_round] gets from [dtoa] in
    mode 3. *)
Definition scaled_digits (m : positive) (e : Z) (ndigits : Z) : Z :=
  let a := Zpos m * 10 ^ ndigits in
  if 0 <=? e then a * 2 ^ e else div_half_even a (2 ^ (- e)).

(** [round(x, ndigits)] for [0 <= ndigits]: the decimal with [ndigits]
    places nearest to the exact value of [x] (ties to even), converted back
    to the nearest float, as [strtod] does.  Zeros, infinities and NaN round
    to themselves; a value that rounds to zero keeps its sign. *)
Definition round (x : float) (ndigits : Z) : float :=
  match Prim2SF x with
  | S754_finite s m e =>
      match scaled_digits m e ndigits with
      | Zpos n =>
          SF2Prim (SFdiv prec emax (S754_finite s n 0)
                         (S754_finite false (Z.to_pos (10 ^ ndigits)) 0))
      | _ => SF2Prim (S754_zero s)
      end
  | _ => x
  end.

(** *** Strings

    A Python [str] is modelled by a Rocq [string]: a sequence of code points
    below 256 (ASCII and Latin-1). *)

Definition code_point (c : ascii) : Z := Z.of_N (N_of_ascii c).

(** [str.isdigit] on one character: the ASCII digits and the superscript
    digits of Latin-1 (U+00B2, U+00B3, U+00B9). *)
Definition isdigit (c : ascii) : bool :=
  let n := code_point c in
  ((48 <=? n) && (n <=? 57)) || (n =? 178) || (n =? 179) || (n =? 185).

(** [str.isspace] on one character: tab to carriage return, the four
    separators U+001C to U+001F, space, U+0085 and U+00A0. *)
Definition isspace (c : ascii) : bool :=
  let n := code_point c in
  ((9 <=? n) && (n <=? 13)) || ((28 <=? n) && (n <=? 32))
  || (n =? 133) || (n =? 160).

(** [str.upper] on one character.  The three code points whose upper-case
    form lies outside the modelled range (U+00B5, U+00DF, U+00FF) are kept;
    none of them upper-cases to an ASCII letter of an English word other
    than S, so comparisons with ["DECLINE"] are unaffected. *)
Definition upper_char (c : ascii) : ascii :=
  let n := code_point c in
  if ((97 <=? n) && (n <=? 122))
     || ((224 <=? n) && (n <=? 254) && negb (n =? 247))
  then ascii_of_N (Z.to_N (n - 32)) else c.

Fixpoint upper (s : string) : string :=
  match s with
  | EmptyString => EmptyString
  | String c s' => String (upper_char c) (upper s')
  end.

(** [s.lstrip()], [s.rstrip()] and [s.strip()] with no argument. *)
Fixpoint lstrip (s : string) : string :=
  match s with
  | String c s' => if isspace c then lstrip s' else s
  | EmptyString => EmptyString
  end.

Fixpoint rstrip (s : string) : string :=
  match s with
  | EmptyString => EmptyString
  | String c s' =>
      match rstrip s' with
      | EmptyString => if isspace c then EmptyString else String c EmptyString
      | r => String c r
      end
  end.

Definition strip (s : string) : string := rstrip (lstrip s).

(** ["".join(ch for ch in s if p(ch))]. *)
Fixpoint filter_chars (p : ascii -> bool) (s : string) : string :=
  match s with
  | EmptyString => EmptyString
  | String c s' =>
      if p c then String c (filter_chars p s') else filter_chars p s'
  end.

Definition len (s : string) : nat := String.length s.

(** [s[:n]] and [s[-n:]] for [0 < n]. *)
Definition take (n : nat) (s : string) : string := substring 0 n s.
Definition take_last (n : nat) (s : string) : string :=
  substring (len s - n) n s.

(** [s.endswith(suffix)]. *)
Definition endswith (s suffix : string) : bool :=
  (len suffix <=? len s)%nat && String.eqb (take_last (len suffix) s) suffix.

(** [sep.join(l)]. *)
Definition join (sep : string) (l : list string) : string :=
  String.concat sep l.

End Py.

(** ** Exceptions

    Every failure of the program is a raised [HTTPException(status_code,
    detail)].  A computation either returns a value or raises one. *)

Record HTTPException := mkHTTPException { status_code : Z; detail : string }.

Inductive result (A : Type) : Type :=
| Ok (a : A)
| Raise (e : HTTPException).
Arguments Ok {A} a.
Arguments Raise {A} e.

Definition bind {A B : Type} (m : result A) (k : A -> result B) : result B :=
  match m with
  | Ok a => k a
  | Raise e => Raise e
  end.

Notation "'let*' x ':=' m 'in' k" := (bind m (fun x => k))
  (at level 10, x name, m at level 100, k at level 200).

(** [for x in l: acc = body(acc, x)], left when [body] raises. *)
Fixpoint for_each {A B : Type} (body : A -> B -> result A) (l : list B)
    (acc : A) : result A :=
  match l with
  | [] => Ok acc
  | x :: rest =>
      let* acc' := body acc x in
      for_each body rest acc'
  end.

(** The error kinds the handlers raise, with the status and the message of
    the source. *)
Definition CartNotFound : HTTPException := mkHTTPException 404 "Cart not found".
Definition OrderNotFound : HTTPException := mkHTTPException 404 "Order not found".
Definition InvalidIndex : HTTPException := mkHTTPException 400 "Invalid index".
Definition InvalidTopping (t : string) : HTTPException :=
  mkHTTPException 400 ("Invalid topping: " +:+ t).
Definition InvalidDrinkSelection : HTTPException :=
  mkHTTPException 400 "Drink cannot be 'none' as an item".
Definition EmptyCart : HTTPException := mkHTTPException 400 "Cart is empty".
Definition MissingPaymentFields (missing : list string) : HTTPException :=
  mkHTTPException 400 ("Missing card fields: " +:+ Py.join ", " missing).
Definition MissingGiftCardCode : HTTPException :=
  mkHTTPException 400 "Missing gift card code".

(** What an uncaught Python exception ([TypeError], [IndexError]) leaves the
    caller with.  The handlers guard against both, so it is never raised. *)
Definition InternalServerError : HTTPException :=
  mkHTTPException 500 "Internal Server Error".

(** ** Menu and pricing tables *)

Inductive PizzaSize := small | medium | large.
Inductive CrustType := thin | hand_tossed | deep_dish | gluten_free.
Inductive SauceType := tomato | alfredo | bbq | pesto.
Inductive CheeseLevel := cheese_light | cheese_normal | cheese_extra.
Inductive BakeLevel := bake_normal | well_done | light_bake.
Inductive CutStyle := pie | square.
Inductive CrustFlavor := flavor_none | garlic_butter | sesame.
Inductive Drizzle := drizzle_none | ranch | hot_honey.
Inductive DrinkType := drink_none | coke | diet_coke | sprite | water | root_beer.

(** The dictionary [PRICES], one function per table. *)
Module PRICES.
Open Scope float_scope.

Definition size (s : PizzaSize) : float :=
  match s with small => 10.00 | medium => 13.00 | large => 16.00 end.

Definition crust (c : CrustType) : float :=
  match c with
  | thin => 0.00 | hand_tossed => 0.00 | deep_dish => 2.00 | gluten_free => 3.00
  end.

Definition cheese (c : CheeseLevel) : float :=
  match c with
  | cheese_light => -0.50 | cheese_normal => 0.00 | cheese_extra => 1.50
  end.

Definition crust_flavor (f : CrustFlavor) : float :=
  match f with flavor_none => 0.00 | garlic_butter => 0.75 | sesame => 0.50 end.

Definition drizzle (d : Drizzle) : float :=
  match d with drizzle_none => 0.00 | ranch => 0.75 | hot_honey => 0.95 end.

Definition topping_each : float := 1.25.

Definition drink (d : DrinkType) : float :=
  match d with
  | drink_none => 0.00 | coke => 2.25 | diet_coke => 2.25 | sprite => 2.25
  | water => 1.50 | root_beer => 2.25
  end.

Definition tax_rate : float := 0.0825.
End PRICES.

Definition TOPPINGS : list string :=
  [ "pepperoni"; "sausage"; "bacon"; "ham";
    "mushrooms"; "onions"; "green_peppers"; "jalapenos";
    "black_olives"; "pineapple"; "spinach"; "tomatoes" ]%string.

(** ** Data models *)

Module PizzaCustomization.
Record t := mk {
  size : PizzaSize;
  crust : CrustType;
  sauce : SauceType;
  cheese : CheeseLevel;
  bake : BakeLevel;
  cut : CutStyle;
  crust_flavor : CrustFlavor;
  drizzle : Drizzle;
  toppings : list string;
  instructions : string
}.

(** [custom.toppings = l]. *)
Definition set_toppings (l : list string) (c : t) : t :=
  mk (size c) (crust c) (sauce c) (cheese c) (bake c) (cut c)
     (crust_flavor c) (drizzle c) l (instructions c).
End PizzaCustomization.

Module CartPizzaItem.
Record t := mk {
  name : string;
  customization : PizzaCustomization.t;
  qty : Z
}.
End CartPizzaItem.

Module CartDrinkItem.
Record t := mk { drink : DrinkType; qty : Z }.
End CartDrinkItem.

(** [CartItem = CartPizzaItem | CartDrinkItem], told apart by [kind]. *)
Inductive CartItem :=
| Pizza (p : CartPizzaItem.t)
| Drink (d : CartDrinkItem.t).

Module Cart.
Record t := mk { cart_id : string; items : list CartItem }.
End Cart.

Module CustomerInfo.
Record t := mk {
  full_name : string;
  email : option string;
  phone : string;
  address_line1 : string;
  address_line2 : string;
  city : string;
  state : string;
  postal_code : string
}.
End CustomerInfo.

Inductive PaymentMethod := card | cash | giftcard.

Module PaymentInfo.
Record t := mk {
  method : PaymentMethod;
  card_number : option string;
  exp_month : option Z;
  exp_year : option Z;
  cvv : option string;
  zip_code : option string;
  code : option string
}.
End PaymentInfo.

Module PlaceOrderRequest.
Record t := mk {
  cart_id : string;
  customer : CustomerInfo.t;
  payment : PaymentInfo.t
}.
End PlaceOrderRequest.

(** ** Pricing helpers *)

(** [allowed = set(TOPPINGS)]. *)
Definition allowed : gset string := list_to_set TOPPINGS.

(** First loop of [validate_toppings]: every entry is looked up in [allowed],
    left to right, and copied to [clean]; the first one that is not there
    raises. *)
Fixpoint validate_toppings_check (toppings clean : list string)
  : result (list string) :=
  match toppings with
  | [] => Ok clean
  | t :: rest =>
      if decide (t ∈ allowed)
      then validate_toppings_check rest (clean ++ [t])
      else Raise (InvalidTopping t)
  end.

(** Second loop: an entry is appended to [dedup] unless [seen] has it. *)
Fixpoint validate_toppings_dedup (clean : list string) (seen : gset string)
    (dedup : list string) : list string :=
  match clean with
  | [] => dedup
  | t :: rest =>
      if decide (t ∈ seen)
      then validate_toppings_dedup rest seen dedup
      else validate_toppings_dedup rest ({[ t ]} ∪ seen) (dedup ++ [t])
  end.

Definition validate_toppings (toppings : list string) : result (list string) :=
  let* clean := validate_toppings_check toppings [] in
  Ok (validate_toppings_dedup clean ∅ []).

Definition price_pizza (custom : PizzaCustomization.t) : result float :=
  let* toppings := validate_toppings (PizzaCustomization.toppings custom) in
  let base := PRICES.size (PizzaCustomization.size custom) in
  let crust := PRICES.crust (PizzaCustomization.crust custom) in
  let cheese := PRICES.cheese (PizzaCustomization.cheese custom) in
  let crust_flavor :=
    PRICES.crust_flavor (PizzaCustomization.crust_flavor custom) in
  let drizzle := PRICES.drizzle (PizzaCustomization.drizzle custom) in
  let topping_cost :=
    (PRICES.topping_each * Py.float_of_int (Z.of_nat (length toppings)))%float in
  Ok (Py.round
        (base + crust + cheese + crust_flavor + drizzle + topping_cost)%float 2).

Definition price_drink (drink : DrinkType) : float :=
  Py.round (PRICES.drink drink) 2.

(** The body of the loop of [cart_subtotal]: [total += unit * item.qty]. *)
Definition cart_subtotal_step (total : float) (item : CartItem) : result float :=
  match item with
  | Pizza p =>
      let* unit := price_pizza (CartPizzaItem.customization p) in
      Ok (total + unit * Py.float_of_int (CartPizzaItem.qty p))%float
  | Drink d =>
      let unit := price_drink (CartDrinkItem.drink d) in
      Ok (total + unit * Py.float_of_int (CartDrinkItem.qty d))%float
  end.

Definition cart_subtotal_loop (items : list CartItem) (total : float)
  : result float :=
  for_each cart_subtotal_step items total.

Definition cart_subtotal (cart : Cart.t) : result float :=
  let* total := cart_subtotal_loop (Cart.items cart) 0%float in
  Ok (Py.round total 2).

Module Totals.
Record t := mk { subtotal : float; tax : float; total : float }.
End Totals.

Definition compute_totals (cart : Cart.t) : result Totals.t :=
  let* subtotal := cart_subtotal cart in
  let tax := Py.round (subtotal * PRICES.tax_rate)%float 2 in
  let total := Py.round (subtotal + tax)%float 2 in
  Ok (Totals.mk subtotal tax total).

(** A line item with the two keys the [enrich_*] helpers add to its dump. *)
Module PricedItem.
Record t := mk { item : CartItem; unit_price : float; line_total : float }.
End PricedItem.

(** [qty or 1]. *)
Definition qty_or_1 (qty : Z) : Z := if qty =? 0 then 1 else qty.

Definition item_qty (it : CartItem) : Z :=
  match it with
  | Pizza p => CartPizzaItem.qty p
  | Drink d => CartDrinkItem.qty d
  end.

(** [price_pizza(it.customization)] or [price_drink(it.drink)], by kind. *)
Definition item_unit_price (it : CartItem) : result float :=
  match it with
  | Pizza p => price_pizza (CartPizzaItem.customization p)
  | Drink d => Ok (price_drink (CartDrinkItem.drink d))
  end.

Definition enrich_item (it : CartItem) : result PricedItem.t :=
  let* unit := item_unit_price it in
  let qty := qty_or_1 (item_qty it) in
  let line_total := Py.round (unit * Py.float_of_int qty)%float 2 in
  Ok (PricedItem.mk it (Py.round unit 2) line_total).

Fixpoint enrich_loop (items : list CartItem) (enriched : list PricedItem.t)
  : result (list PricedItem.t) :=
  match items with
  | [] => Ok enriched
  | it :: rest =>
      let* d := enrich_item it in
      enrich_loop rest (enriched ++ [d])
  end.

(** The cart dump with priced items ([cart_dict["items"] = enriched]). *)
Module PricedCart.
Record t := mk { cart_id : string; items : list PricedItem.t }.
End PricedCart.

Definition enrich_items_with_prices (cart : Cart.t) : result PricedCart.t :=
  let* enriched := enrich_loop (Cart.items cart) [] in
  Ok (PricedCart.mk (Cart.cart_id cart) enriched).

(** [enrich_order_items] works on the dump of the items and coerces each
    customization back into a model before pricing it; a dump and its
    re-validation are the identity on these records, and [float(unit)] is the
    identity on a float, so it prices each item like [enrich_item]. *)
Definition enrich_order_items (items : list CartItem)
  : result (list PricedItem.t) :=
  enrich_loop items [].

(** ** Mock payment processor *)

(** What the program reads from [datetime.utcnow()]. *)
Module datetime.
Record t := mk { year : Z; month : Z; isoformat : string }.
End datetime.

(** The dictionary [mock_authorize] returns: [status] is ["approved"] (with
    [auth_id], [amount] and, for cards, [card_last4]) or ["declined"] (with
    [reason]). *)
Inductive PaymentResult :=
| approved (auth_id : string) (amount : float) (card_last4 : option string)
| declined (reason : string).

Definition normalized_card_digits (p : PaymentInfo.t) : string :=
  Py.filter_chars Py.isdigit (default ""%string (PaymentInfo.card_number p)).

(** [getattr(self, k) in (None, "")] for a string field and an int field. *)
Definition missing_str (o : option string) : bool :=
  match o with None => true | Some s => String.eqb s "" end.
Definition missing_int (o : option Z) : bool :=
  match o with None => true | Some _ => false end.

Definition missing_card_fields (p : PaymentInfo.t) : list string :=
  fst <$> filter (fun kv => snd kv = true)
    [ ("card_number"%string, missing_str (PaymentInfo.card_number p));
      ("exp_month"%string, missing_int (PaymentInfo.exp_month p));
      ("exp_year"%string, missing_int (PaymentInfo.exp_year p));
      ("cvv"%string, missing_str (PaymentInfo.cvv p));
      ("zip_code"%string, missing_str (PaymentInfo.zip_code p)) ].

Definition validate_required (p : PaymentInfo.t) : result unit :=
  let* _ :=
    match PaymentInfo.method p with
    | card =>
        match missing_card_fields p with
        | [] => Ok tt
        | missing => Raise (MissingPaymentFields missing)
        end
    | _ => Ok tt
    end in
  match PaymentInfo.method p with
  | giftcard =>
      if missing_str (PaymentInfo.code p) then Raise MissingGiftCardCode
      else Ok tt
  | _ => Ok tt
  end.

(** [mock_authorize(payment, amount)], with the clock reading [now] and the
    hexadecimal form [uuid4_hex] of the identifier it draws. *)
Definition mock_authorize (now : datetime.t) (uuid4_hex : string)
    (payment : PaymentInfo.t) (amount : float) : result PaymentResult :=
  let* _ := validate_required payment in
  match PaymentInfo.method payment with
  | cash => Ok (approved "cash" amount None)
  | giftcard =>
      if String.eqb
           (Py.upper (Py.strip (default ""%string (PaymentInfo.code payment))))
           "DECLINE"
      then Ok (declined "Mock gift card declined")
      else Ok (approved ("gift_" +:+ Py.take 10 uuid4_hex) amount None)
  | card =>
      match PaymentInfo.exp_year payment, PaymentInfo.exp_month payment with
      | Some exp_year, Some exp_month =>
          let exp_ok :=
            (datetime.year now <? exp_year)
            || ((exp_year =? datetime.year now)
                && (datetime.month now <=? exp_month)) in
          if negb exp_ok then Ok (declined "Card expired")
          else
            let digits := normalized_card_digits payment in
            if Py.endswith digits "0000"
            then Ok (declined "Mock decline rule (ends with 0000)")
            else
              let auth_id := ("auth_" +:+ Py.take 12 uuid4_hex)%string in
              let last4 :=
                if (4 <=? Py.len digits)%nat then Py.take_last 4 digits
                else "????"%string in
              Ok (approved auth_id amount (Some last4))
      | _, _ =>
          (* [TypeError] on comparing [None]: excluded by
             [validate_required] *)
          Raise InternalServerError
      end
  end.

(** ** In-memory store and API endpoints *)

Module OrderSummary.
Record t := mk {
  order_id : string;
  created_at_utc : string;
  customer : CustomerInfo.t;
  items : list PricedItem.t;
  totals : Totals.t;
  payment : PaymentResult;
  status : string
}.
End OrderSummary.

(** The two module-level dictionaries. *)
Module Store.
Record t := mk {
  CARTS : gmap string Cart.t;
  ORDERS : gmap string OrderSummary.t
}.

Definition empty : t := mk ∅ ∅.

(** The cart object stored under [cart_id] now has the items [items]. *)
Definition set_items (cart_id : string) (cart : Cart.t)
    (items : list CartItem) (st : t) : t :=
  mk (<[cart_id := Cart.mk (Cart.cart_id cart) items]> (CARTS st)) (ORDERS st).
End Store.

(** A handler takes the store and gives its response, or the exception it
    raised, with the store as it is afterwards. *)
Definition handler (A : Type) : Type := Store.t -> result A * Store.t.

(** [{"cart": cart, "totals": compute_totals(cart)}], evaluated after the
    handler has changed the cart. *)
Module CartResponse.
Record t := mk { cart : Cart.t; totals : Totals.t }.
End CartResponse.

Definition cart_response (cart : Cart.t) : result CartResponse.t :=
  let* totals := compute_totals cart in
  Ok (CartResponse.mk cart totals).

Definition create_cart (uuid4_hex : string) : handler Cart.t :=
  fun st =>
    let cart_id := ("cart_" +:+ Py.take 12 uuid4_hex)%string in
    let cart := Cart.mk cart_id [] in
    (Ok cart, Store.mk (<[cart_id := cart]> (Store.CARTS st)) (Store.ORDERS st)).

Definition get_cart (cart_id : string)
  : handler (PricedCart.t * Totals.t) :=
  fun st =>
    match Store.CARTS st !! cart_id with
    | None => (Raise CartNotFound, st)
    | Some cart =>
        (let* totals := compute_totals cart in
         let* cart_dict := enrich_items_with_prices cart in
         Ok (cart_dict, totals), st)
    end.

Definition add_pizza (cart_id : string) (item : CartPizzaItem.t)
  : handler CartResponse.t :=
  fun st =>
    match Store.CARTS st !! cart_id with
    | None => (Raise CartNotFound, st)
    | Some cart =>
        let custom := CartPizzaItem.customization item in
        match validate_toppings (PizzaCustomization.toppings custom) with
        | Raise e => (Raise e, st)
        | Ok toppings =>
            let item' :=
              CartPizzaItem.mk (CartPizzaItem.name item)
                (PizzaCustomization.set_toppings toppings custom)
                (CartPizzaItem.qty item) in
            let items' := Cart.items cart ++ [Pizza item'] in
            (cart_response (Cart.mk (Cart.cart_id cart) items'),
             Store.set_items cart_id cart items' st)
        end
    end.

Definition add_drink (cart_id : string) (item : CartDrinkItem.t)
  : handler CartResponse.t :=
  fun st =>
    match Store.CARTS st !! cart_id with
    | None => (Raise CartNotFound, st)
    | Some cart =>
        match CartDrinkItem.drink item with
        | drink_none => (Raise InvalidDrinkSelection, st)
        | _ =>
            let items' := Cart.items cart ++ [Drink item] in
            (cart_response (Cart.mk (Cart.cart_id cart) items'),
             Store.set_items cart_id cart items' st)
        end
    end.

(** [UpdateQtyRequest] and [RemoveItemRequest]: [index] is declared with
    [ge=0], so a handler only ever sees a natural number. *)
Module UpdateQtyRequest.
Record t := mk { index : nat; qty : Z }.
End UpdateQtyRequest.

Module RemoveItemRequest.
Record t := mk { index : nat }.
End RemoveItemRequest.

(** [item.qty = qty]. *)
Definition set_qty (qty : Z) (it : CartItem) : CartItem :=
  match it with
  | Pizza p =>
      Pizza (CartPizzaItem.mk (CartPizzaItem.name p)
               (CartPizzaItem.customization p) qty)
  | Drink d => Drink (CartDrinkItem.mk (CartDrinkItem.drink d) qty)
  end.

Definition update_qty (cart_id : string) (req : UpdateQtyRequest.t)
  : handler CartResponse.t :=
  fun st =>
    match Store.CARTS st !! cart_id with
    | None => (Raise CartNotFound, st)
    | Some cart =>
        let index := UpdateQtyRequest.index req in
        if (length (Cart.items cart) <=? index)%nat
        then (Raise InvalidIndex, st)
        else
          match Cart.items cart !! index with
          | Some item =>
              let items' :=
                <[index := set_qty (UpdateQtyRequest.qty req) item]>
                  (Cart.items cart) in
              (cart_response (Cart.mk (Cart.cart_id cart) items'),
               Store.set_items cart_id cart items' st)
          | None =>
              (* [IndexError]: excluded by the test above *)
              (Raise InternalServerError, st)
          end
    end.

Definition remove_item (cart_id : string) (req : RemoveItemRequest.t)
  : handler CartResponse.t :=
  fun st =>
    match Store.CARTS st !! cart_id with
    | None => (Raise CartNotFound, st)
    | Some cart =>
        let index := RemoveItemRequest.index req in
        if (length (Cart.items cart) <=? index)%nat
        then (Raise InvalidIndex, st)
        else
          let items' := delete index (Cart.items cart) in
          (cart_response (Cart.mk (Cart.cart_id cart) items'),
           Store.set_items cart_id cart items' st)
    end.

Definition clear_cart (cart_id : string) : handler CartResponse.t :=
  fun st =>
    match Store.CARTS st !! cart_id with
    | None => (Raise CartNotFound, st)
    | Some cart =>
        (cart_response (Cart.mk (Cart.cart_id cart) []),
         Store.set_items cart_id cart [] st)
    end.

(** The clock readings and identifiers one call of [place_order] consumes:
    those of [mock_authorize], then those of the order itself. *)
Module Env.
Record t := mk {
  auth_now : datetime.t;
  auth_uuid4_hex : string;
  order_uuid4_hex : string;
  order_now : datetime.t
}.
End Env.

(** The two shapes of the response of [place_order]. *)
Inductive PlaceOrderResponse :=
| PaymentDeclined (message : string) (payment : PaymentResult)
    (cart : Cart.t) (totals : Totals.t) (customer : CustomerInfo.t)
| OrderPlaced (order_summary : OrderSummary.t).

(** The key ["ok"] of the response. *)
Definition ok (r : PlaceOrderResponse) : bool :=
  match r with
  | PaymentDeclined _ _ _ _ _ => false
  | OrderPlaced _ => true
  end.

Definition place_order (env : Env.t) (req : PlaceOrderRequest.t)
  : handler PlaceOrderResponse :=
  fun st =>
    let cart_id := PlaceOrderRequest.cart_id req in
    match Store.CARTS st !! cart_id with
    | None => (Raise CartNotFound, st)
    | Some cart =>
        match Cart.items cart with
        | [] => (Raise EmptyCart, st)
        | _ =>
            match compute_totals cart with
            | Raise e => (Raise e, st)
            | Ok totals =>
                match mock_authorize (Env.auth_now env) (Env.auth_uuid4_hex env)
                        (PlaceOrderRequest.payment req) (Totals.total totals)
                with
                | Raise e => (Raise e, st)
                | Ok (declined reason) =>
                    (Ok (PaymentDeclined "Payment declined" (declined reason)
                           cart totals (PlaceOrderRequest.customer req)), st)
                | Ok payment_result =>
                    let order_id :=
                      ("order_" +:+ Py.take 12 (Env.order_uuid4_hex env))%string in
                    match enrich_order_items (Cart.items cart) with
                    | Raise e => (Raise e, st)
                    | Ok items =>
                        let summary :=
                          OrderSummary.mk order_id
                            (datetime.isoformat (Env.order_now env) +:+ "Z")
                            (PlaceOrderRequest.customer req)
                            items totals payment_result "placed" in
                        (Ok (OrderPlaced summary),
                         Store.mk
                           (<[cart_id := Cart.mk (Cart.cart_id cart) []]>
                              (Store.CARTS st))
                           (<[order_id := summary]> (Store.ORDERS st)))
                    end
                end
            end
        end
    end.

Definition get_order (order_id : string) : handler OrderSummary.t :=
  fun st =>
    match Store.ORDERS st !! order_id with
    | None => (Raise OrderNotFound, st)
    | Some order => (Ok order, st)
    end.

(** *** Reachable stores *)

(** One request to the API, with what the handler draws from outside. *)
Inductive Request :=
| CreateCart (uuid4_hex : string)
| GetCart (cart_id : string)
| AddPizza (cart_id : string) (item : CartPizzaItem.t)
| AddDrink (cart_id : string) (item : CartDrinkItem.t)
| UpdateQty (cart_id : string) (req : UpdateQtyRequest.t)
| RemoveItem (cart_id : string) (req : RemoveItemRequest.t)
| ClearCart (cart_id : string)
| PlaceOrder (env : Env.t) (req : PlaceOrderRequest.t)
| GetOrder (order_id : string).

(** The store a request leaves behind. *)
Definition serve (r : Request) (st : Store.t) : Store.t :=
  match r with
  | CreateCart u => snd (create_cart u st)
  | GetCart c => snd (get_cart c st)
  | AddPizza c item => snd (add_pizza c item st)
  | AddDrink c item => snd (add_drink c item st)
  | UpdateQty c req => snd (update_qty c req st)
  | RemoveItem c req => snd (remove_item c req st)
  | ClearCart c => snd (clear_cart c st)
  | PlaceOrder env req => snd (place_order env req st)
  | GetOrder o => snd (get_order o st)
  end.

(** The stores the process can be in: it starts with both dictionaries empty
    and serves one request after the other. *)
Inductive reachable : Store.t -> Prop :=
| reachable_start : reachable Store.empty
| reachable_serve st r : reachable st -> reachable (serve r st).

(** * Vocabulary of the statements and sample data *)

(** Every entry is a name of the catalog. *)
Definition all_valid (toppings : list string) : Prop :=
  Forall (fun t => t ∈ TOPPINGS) toppings.

(** What the validator is meant to return on a valid list: each entry that
    occurs for the first time is kept in its place, and every later copy of
    it is dropped. *)
Fixpoint keep_first_occurrences (l : list string) : list string :=
  match l with
  | [] => []
  | x :: rest => x :: filter (fun y => y ≠ x) (keep_first_occurrences rest)
  end.

(** The number of distinct entries of a list. *)
Definition distinct_count (l : list string) : nat :=
  size (list_to_set l : gset string).

(** The float sum [price_pizza] rounds, for [n] priced toppings. *)
Definition pizza_sum (custom : PizzaCustomization.t) (n : nat) : float :=
  (PRICES.size (PizzaCustomization.size custom)
   + PRICES.crust (PizzaCustomization.crust custom)
   + PRICES.cheese (PizzaCustomization.cheese custom)
   + PRICES.crust_flavor (PizzaCustomization.crust_flavor custom)
   + PRICES.drizzle (PizzaCustomization.drizzle custom)
   + 1.25 * Py.float_of_int (Z.of_nat n))%float.

Definition sample_pizza (toppings : list string) : PizzaCustomization.t :=
  PizzaCustomization.mk large deep_dish tomato cheese_light bake_normal pie
    sesame hot_honey toppings "".

(** An item the pricing helpers accept: a drink, or a pizza whose toppings
    are all in the catalog. *)
Definition item_valid (it : CartItem) : Prop :=
  match it with
  | Pizza p =>
      all_valid (PizzaCustomization.toppings (CartPizzaItem.customization p))
  | Drink _ => True
  end.

(** The unit price of an item (of a valid item: the price the helper
    returns). *)
Definition unit_price_of (it : CartItem) : float :=
  match item_unit_price it with
  | Ok unit => unit
  | Raise _ => 0%float
  end.

(** [unit * item.qty], as the loop of [cart_subtotal] adds it. *)
Definition line_total_of (it : CartItem) : float :=
  (unit_price_of it * Py.float_of_int (item_qty it))%float.

(** Left-to-right float sum, from [acc]. *)
Definition float_sum_from (acc : float) (l : list float) : float :=
  fold_left PrimFloat.add l acc.

Definition float_sum (l : list float) : float := float_sum_from 0%float l.

Definition totals_of (subtotal : float) : Totals.t :=
  let tax := Py.round (subtotal * 0.0825)%float 2 in
  Totals.mk subtotal tax (Py.round (subtotal + tax)%float 2).

(** Two small thin-crust pizzas with normal cheese and no topping, at 10.00
    each. *)
Definition two_small_pizzas : Cart.t :=
  Cart.mk "cart_0123456789ab"
    [ Pizza (CartPizzaItem.mk "Custom Pizza"
               (PizzaCustomization.mk small thin tomato cheese_normal
                  bake_normal pie flavor_none drizzle_none [] "") 2) ].

(** The subtotal as the specification words it: every line total is rounded
    to 2 decimals before it is added, and the sum is rounded again. *)
Definition cart_subtotal_rounded_lines (cart : Cart.t) : float :=
  Py.round
    (float_sum ((fun it => Py.round (line_total_of it) 2) <$> Cart.items cart))
    2.

(** A cart given by runs of equal items: [(it, n)] stands for [n] copies
    of [it]. *)
Definition expand (runs : list (CartItem * positive)) : list CartItem :=
  fold_right (fun run rest => Pos.iter (cons run.1) rest run.2) [] runs.

(** The float sum of such a cart, one run at a time. *)
Definition float_sum_runs (f : CartItem -> float)
    (runs : list (CartItem * positive)) (acc : float) : float :=
  fold_left
    (fun acc run =>
       let line := f run.1 in Pos.iter (fun t => t + line)%float acc run.2)
    runs acc.

(** A large gluten-free pizza with extra cheese and hot honey, without
    topping, plain (21.45) or with garlic butter (22.20). *)
Definition plain_pizza (qty : Z) : CartItem :=
  Pizza (CartPizzaItem.mk "Custom Pizza"
           (PizzaCustomization.mk large gluten_free tomato cheese_extra
              bake_normal pie flavor_none hot_honey [] "") qty).

Definition garlic_pizza (qty : Z) : CartItem :=
  Pizza (CartPizzaItem.mk "Custom Pizza"
           (PizzaCustomization.mk large gluten_free tomato cheese_extra
              bake_normal pie garlic_butter hot_honey [] "") qty).

(** A cart of 793784 lines, every quantity between 17 and 20. *)
Definition long_cart_runs : list (CartItem * positive) :=
  [ (plain_pizza 18, 1); (garlic_pizza 19, 1); (garlic_pizza 17, 1);
    (garlic_pizza 19, 6); (garlic_pizza 17, 1); (garlic_pizza 19, 9);
    (garlic_pizza 20, 1); (garlic_pizza 19, 57); (garlic_pizza 18, 1);
    (garlic_pizza 19, 1165); (garlic_pizza 20, 1); (garlic_pizza 19, 8700);
    (garlic_pizza 20, 1); (garlic_pizza 19, 9942); (garlic_pizza 18, 1);
    (garlic_pizza 19, 59662); (garlic_pizza 20, 1); (garlic_pizza 19, 556853);
    (garlic_pizza 20, 1); (garlic_pizza 19, 157379) ]%positive.

Definition long_cart : Cart.t :=
  Cart.mk "cart_0123456789ab" (expand long_cart_runs).






Definition november_2026 : datetime.t :=
  datetime.mk 2026 11 "2026-11-03T12:00:00".

Definition sample_uuid4_hex : string := "3f2a9c0b7d414e6e8a55c1d2e3f40718".

Definition cash_payment : PaymentInfo.t :=
  PaymentInfo.mk cash None None None None None None.

Definition gift_payment (code : string) : PaymentInfo.t :=
  PaymentInfo.mk giftcard None None None None None (Some code).

Definition card_payment (number : string) (exp_month exp_year : Z)
  : PaymentInfo.t :=
  PaymentInfo.mk card (Some number) (Some exp_month) (Some exp_year)
    (Some "123"%string) (Some "94110"%string) None.

Definition store_with (cart : Cart.t) : Store.t :=
  Store.mk {[ Cart.cart_id cart := cart ]} ∅.

(** A cart of three lines: a pizza, a water, a coke. *)
Definition three_lines : Cart.t :=
  Cart.mk "cart_0123456789ab"
    (Cart.items two_small_pizzas
     ++ [Drink (CartDrinkItem.mk water 1); Drink (CartDrinkItem.mk coke 2)]).

(** A priced line of an order: the item itself, its unit price and its line
    total, both rounded to 2 decimals. *)
Definition priced_as (it : CartItem) (priced : PricedItem.t) : Prop :=
  PricedItem.item priced = it
  ∧ ∃ unit, item_unit_price it = Ok unit
      ∧ PricedItem.unit_price priced = Py.round unit 2
      ∧ PricedItem.line_total priced
        = Py.round (unit * Py.float_of_int (qty_or_1 (item_qty it)))%float 2.

(** The line total of the line of an item: the unit price times the quantity
    of the item, rounded to 2 decimals; an item without a quantity (zero) is
    charged once. *)
Definition line_total_for (it : CartItem) (line : PricedItem.t) : Prop :=
  ∀ unit, item_unit_price it = Ok unit →
    (item_qty it ≠ 0 →
     PricedItem.line_total line
     = Py.round (unit * Py.float_of_int (item_qty it))%float 2)
    ∧ (item_qty it = 0 →
       PricedItem.line_total line
       = Py.round (unit * Py.float_of_int 1)%float 2).

Definition priceable (it : CartItem) : Prop :=
  ∃ unit, item_unit_price it = Ok unit.

(** The identifier under which a request files an order, if it does. *)
Definition filed_under (r : Request) : option string :=
  match r with
  | PlaceOrder env _ => Some ("order_" +:+ Py.take 12 (Env.order_uuid4_hex env))
  | _ => None
  end.

Definition sample_customer : CustomerInfo.t :=
  CustomerInfo.mk "Ada Lovelace" None "555-0100" "12 Analytical Way" ""
    "Springfield" "IL" "62701".

Definition sample_env : Env.t :=
  Env.mk november_2026 sample_uuid4_hex "9b1de2f4a6c80d3e5f7a1b2c3d4e5f60"
    november_2026.

Definition sample_request (payment : PaymentInfo.t) : PlaceOrderRequest.t :=
  PlaceOrderRequest.mk "cart_0123456789ab" sample_customer payment.

(** The toppings of a pizza item have no duplicate and are all in the
    catalog. *)
Definition clean_toppings (it : CartItem) : Prop :=
  match it with
  | Pizza p =>
      let toppings :=
        PizzaCustomization.toppings (CartPizzaItem.customization p) in
      NoDup toppings ∧ all_valid toppings
  | Drink _ => True
  end.

Definition carts_clean (st : Store.t) : Prop :=
  ∀ cart_id cart, Store.CARTS st !! cart_id = Some cart →
    Forall clean_toppings (Cart.items cart).

(** A store reached by creating a cart and sending it a pizza that names
    ham twice. *)
Definition store_after_add_pizza : Store.t :=
  serve (AddPizza "cart_3f2a9c0b7d41"
           (CartPizzaItem.mk "Custom Pizza"
              (sample_pizza ["ham"; "bacon"; "ham"]%string) 1))
    (serve (CreateCart sample_uuid4_hex) Store.empty).

(** The tables of [PRICES] read as decimal numbers, in cents. *)
Definition size_cents (s : PizzaSize) : Z :=
  match s with small => 1000 | medium => 1300 | large => 1600 end.
Definition crust_cents (c : CrustType) : Z :=
  match c with thin => 0 | hand_tossed => 0 | deep_dish => 200 | gluten_free => 300 end.
Definition cheese_cents (c : CheeseLevel) : Z :=
  match c with cheese_light => -50 | cheese_normal => 0 | cheese_extra => 150 end.
Definition crust_flavor_cents (f : CrustFlavor) : Z :=
  match f with flavor_none => 0 | garlic_butter => 75 | sesame => 50 end.
Definition drizzle_cents (d : Drizzle) : Z :=
  match d with drizzle_none => 0 | ranch => 75 | hot_honey => 95 end.

Definition pizza_cents (custom : PizzaCustomization.t) (n : nat) : Z :=
  size_cents (PizzaCustomization.size custom)
  + crust_cents (PizzaCustomization.crust custom)
  + cheese_cents (PizzaCustomization.cheese custom)
  + crust_flavor_cents (PizzaCustomization.crust_flavor custom)
  + drizzle_cents (PizzaCustomization.drizzle custom)
  + 125 * Z.of_nat n.

(** The float nearest to [cents / 100]. *)
Definition float_of_cents (cents : Z) : float :=
  (Py.float_of_int cents / 100)%float.

(** ** Vocabulary of the further properties *)

(** A string field that is present: neither [None] nor the empty string.
    An integer field that is present: not [None]. *)
Definition present_str (o : option string) : Prop :=
  ∃ s, o = Some s ∧ s ≠ ""%string.
Definition present_int (o : option Z) : Prop := ∃ n, o = Some n.

(** The fields the method of a payment requires are present. *)
Definition required_present (p : PaymentInfo.t) : Prop :=
  match PaymentInfo.method p with
  | card =>
      present_str (PaymentInfo.card_number p)
      ∧ present_int (PaymentInfo.exp_month p)
      ∧ present_int (PaymentInfo.exp_year p)
      ∧ present_str (PaymentInfo.cvv p)
      ∧ present_str (PaymentInfo.zip_code p)
  | cash => True
  | giftcard => present_str (PaymentInfo.code p)
  end.

(** Every character of [s] satisfies [p]. *)
Fixpoint all_chars (p : ascii -> bool) (s : string) : bool :=
  match s with
  | EmptyString => true
  | String c s' => p c && all_chars p s'
  end.

(** A quantity the item models accept ([ge=1, le=20]). *)
Definition qty_ok (qty : Z) : Prop := 1 <= qty <= 20.

(** The drink table of [PRICES] read as decimal numbers, in cents. *)
Definition drink_cents (d : DrinkType) : Z :=
  match d with
  | drink_none => 0 | coke => 225 | diet_coke => 225 | sprite => 225
  | water => 150 | root_beer => 225
  end.

(** The exact unit price of an item, in cents. *)
Definition item_cents (it : CartItem) : Z :=
  match it with
  | Pizza p =>
      pizza_cents (CartPizzaItem.customization p)
        (distinct_count
           (PizzaCustomization.toppings (CartPizzaItem.customization p)))
  | Drink d => drink_cents (CartDrinkItem.drink d)
  end.

(** The line of an item with the exact decimal amounts: the floats nearest
    to the unit price and to the unit price times the quantity. *)
Definition exact_line (it : CartItem) : PricedItem.t :=
  PricedItem.mk it (float_of_cents (item_cents it))
    (float_of_cents (item_cents it * item_qty it)).

(** The unit prices an item can have, in cents: the three drink prices and
    every amount from 9.50 to 37.20 in steps of 0.05; and each of them with
    every quantity from 1 to 20. *)
Definition unit_price_cases : list Z :=
  [0; 150; 225] ++ ((fun k => 5 * k) <$> seqZ 190 555).
Definition price_quantity_cases : list (Z * Z) :=
  c ← unit_price_cases; q ← seqZ 1 20; [(c, q)].

(** The two roundings of [enrich_item], of a unit price of [c] cents and of
    its product with a quantity [q]; and the exact line total. *)
Definition rounded_unit (c : Z) : float := Py.round (float_of_cents c) 2.
Definition rounded_line (cq : Z * Z) : float :=
  Py.round (float_of_cents cq.1 * Py.float_of_int cq.2)%float 2.
Definition exact_line_total (cq : Z * Z) : float :=
  float_of_cents (cq.1 * cq.2).

(** The exception a response carries, if it is one. *)
Definition error_of {A : Type} (r : result A) : option HTTPException :=
  match r with
  | Ok _ => None
  | Raise e => Some e
  end.

(** The exception a request is answered with, if any. *)
Definition response_error (r : Request) (st : Store.t)
  : option HTTPException :=
  match r with
  | CreateCart u => error_of (fst (create_cart u st))
  | GetCart c => error_of (fst (get_cart c st))
  | AddPizza c item => error_of (fst (add_pizza c item st))
  | AddDrink c item => error_of (fst (add_drink c item st))
  | UpdateQty c req => error_of (fst (update_qty c req st))
  | RemoveItem c req => error_of (fst (remove_item c req st))
  | ClearCart c => error_of (fst (clear_cart c st))
  | PlaceOrder env req => error_of (fst (place_order env req st))
  | GetOrder o => error_of (fst (get_order o st))
  end.

(** The store after a sequence of requests, served in order. *)
Definition serve_all (rs : list Request) (st : Store.t) : Store.t :=
  fold_left (fun st r => serve r st) rs st.

(** A request whose quantities satisfy the bounds of its model. *)
Definition request_well_formed (r : Request) : Prop :=
  match r with
  | AddPizza _ item => qty_ok (CartPizzaItem.qty item)
  | AddDrink _ item => qty_ok (CartDrinkItem.qty item)
  | UpdateQty _ req => qty_ok (UpdateQtyRequest.qty req)
  | _ => True
  end.

(** Two items that differ at most in their quantity. *)
Definition same_product (it it' : CartItem) : Prop :=
  match it, it' with
  | Pizza p, Pizza p' =>
      CartPizzaItem.name p = CartPizzaItem.name p'
      ∧ CartPizzaItem.customization p = CartPizzaItem.customization p'
  | Drink d, Drink d' => CartDrinkItem.drink d = CartDrinkItem.drink d'
  | _, _ => False
  end.

(** An item that is not the placeholder drink. *)
Definition real_item (it : CartItem) : Prop :=
  match it with
  | Pizza _ => True
  | Drink d => CartDrinkItem.drink d ≠ drink_none
  end.

(** Every item of every cart of the store satisfies [P]. *)
Definition all_items (P : CartItem -> Prop) (st : Store.t) : Prop :=
  ∀ cart_id cart, Store.CARTS st !! cart_id = Some cart →
    Forall P (Cart.items cart).

(** The totals of a cart without items. *)
Definition zero_totals : Totals.t := Totals.mk 0 0 0.

(** What a well-kept order looks like: it is filed under its own identifier,
    is placed, has at least one line, prices every line from the item on it,
    derives its totals from one subtotal, and was approved for exactly its
    total. *)
Definition order_well_kept (key : string) (order : OrderSummary.t) : Prop :=
  OrderSummary.order_id order = key
  ∧ String.prefix "order_" key = true
  ∧ OrderSummary.status order = "placed"%string
  ∧ OrderSummary.items order ≠ []
  ∧ Forall (fun line => priced_as (PricedItem.item line) line)
      (OrderSummary.items order)
  ∧ (∃ subtotal, OrderSummary.totals order = totals_of subtotal)
  ∧ ∃ auth_id card_last4,
      OrderSummary.payment order
      = approved auth_id (Totals.total (OrderSummary.totals order)) card_last4.

(** A cart is stored under its own identifier, which starts with
    ["cart_"]. *)
Definition cart_well_kept (key : string) (cart : Cart.t) : Prop :=
  Cart.cart_id cart = key ∧ String.prefix "cart_" key = true.

(** The pizza [add_pizza] stores for [item] when the validator returns
    [dedup]. *)
Definition stored_pizza (item : CartPizzaItem.t) (dedup : list string)
  : CartItem :=
  Pizza (CartPizzaItem.mk (CartPizzaItem.name item)
           (PizzaCustomization.set_toppings dedup
              (CartPizzaItem.customization item))
           (CartPizzaItem.qty item)).

(** The order [place_order] files for an approved payment, and the store it
    leaves. *)
Definition order_of (env : Env.t) (req : PlaceOrderRequest.t)
    (lines : list PricedItem.t) (totals : Totals.t) (payment : PaymentResult)
  : OrderSummary.t :=
  OrderSummary.mk ("order_" +:+ Py.take 12 (Env.order_uuid4_hex env))
    (datetime.isoformat (Env.order_now env) +:+ "Z")
    (PlaceOrderRequest.customer req) lines totals payment "placed".

Definition store_after_order (req : PlaceOrderRequest.t) (cart : Cart.t)
    (order : OrderSummary.t) (st : Store.t) : Store.t :=
  Store.mk
    (<[PlaceOrderRequest.cart_id req := Cart.mk (Cart.cart_id cart) []]>
       (Store.CARTS st))
    (<[OrderSummary.order_id order := order]> (Store.ORDERS st)).

(** The store after the cart of [store_after_add_pizza] is ordered and paid
    in cash. *)
Definition store_after_cash_order : Store.t :=
  serve (PlaceOrder sample_env
           (PlaceOrderRequest.mk "cart_3f2a9c0b7d41" sample_customer
              cash_payment))
    store_after_add_pizza.

(** * Properties *)

(** ** Topping validation *)

Lemma elem_of_allowed (t : string) : t ∈ allowed ↔ t ∈ TOPPINGS.
Proof. unfold allowed. apply elem_of_list_to_set. Qed.

Lemma validate_toppings_check_valid (toppings clean : list string) :
  all_valid toppings →
  validate_toppings_check toppings clean = Ok (clean ++ toppings).
Proof.
  revert clean. induction toppings as [|t rest IH]; intros clean Hv; simpl.
  - by rewrite app_nil_r.
  - inversion Hv as [|? ? Ht Hrest]; subst.
    destruct (decide (t ∈ allowed)) as [_|Hn].
    + rewrite IH by done. by rewrite <- app_assoc.
    + exfalso. apply Hn. by apply elem_of_allowed.
Qed.

Lemma validate_toppings_check_invalid (l1 l2 clean : list string) (t : string) :
  all_valid l1 → t ∉ TOPPINGS →
  validate_toppings_check (l1 ++ t :: l2) clean = Raise (InvalidTopping t).
Proof.
  revert clean. induction l1 as [|x l1 IH]; intros clean Hv Ht; simpl.
  - destruct (decide (t ∈ allowed)) as [Hin|_]; [|done].
    exfalso. apply Ht. by apply elem_of_allowed.
  - inversion Hv as [|? ? Hx Hrest]; subst.
    destruct (decide (x ∈ allowed)) as [_|Hn].
    + by apply IH.
    + exfalso. apply Hn. by apply elem_of_allowed.
Qed.

(** A list that is not all valid splits at its first invalid entry. *)
Lemma first_invalid (l : list string) :
  ¬ all_valid l →
  ∃ l1 t l2, l = l1 ++ t :: l2 ∧ all_valid l1 ∧ t ∉ TOPPINGS.
Proof.
  induction l as [|x l IH]; intros Hn.
  - exfalso. apply Hn. constructor.
  - destruct (decide (x ∈ TOPPINGS)) as [Hx|Hx].
    + destruct IH as (l1 & t & l2 & -> & Hv & Ht).
      { intros Hl. apply Hn. by constructor. }
      exists (x :: l1), t, l2. repeat split; [by constructor | done].
    + exists [], x, l. repeat split; [constructor | done].
Qed.

Lemma filter_not_in_union (t : string) (seen : gset string) (l : list string) :
  filter (fun x => x ∉ {[ t ]} ∪ seen) l
  = filter (fun x => x ∉ seen) (filter (fun y => y ≠ t) l).
Proof.
  induction l as [|a l IH]; [done|].
  rewrite !filter_cons.
  destruct (decide (a ≠ t)) as [Hne|Heq].
  - rewrite filter_cons.
    destruct (decide (a ∉ {[ t ]} ∪ seen)) as [H1|H1];
      destruct (decide (a ∉ seen)) as [H2|H2]; rewrite IH; try done.
    + exfalso. apply H2. set_solver.
    + exfalso. apply H1. set_solver.
  - destruct (decide (a ∉ {[ t ]} ∪ seen)) as [H1|H1]; [|done].
    exfalso. apply Heq. set_solver.
Qed.

Lemma filter_seen_drop (t : string) (seen : gset string) (l : list string) :
  t ∈ seen →
  filter (fun x => x ∉ seen) (filter (fun y => y ≠ t) l)
  = filter (fun x => x ∉ seen) l.
Proof.
  intros Ht. induction l as [|a l IH]; [done|].
  rewrite !filter_cons.
  destruct (decide (a ≠ t)) as [Hne|Heq].
  - rewrite filter_cons. destruct (decide (a ∉ seen)); by rewrite IH.
  - destruct (decide (a ∉ seen)) as [Ha|_]; [|done].
    exfalso. apply Heq. intros ->. done.
Qed.

(** The loop with its accumulators: what is already in [dedup] stays, and the
    first occurrences that [seen] does not have are appended in order. *)
Lemma validate_toppings_dedup_spec (clean : list string) (seen : gset string)
    (dedup : list string) :
  validate_toppings_dedup clean seen dedup
  = dedup ++ filter (fun x => x ∉ seen) (keep_first_occurrences clean).
Proof.
  revert seen dedup. induction clean as [|t rest IH]; intros seen dedup; simpl.
  - by rewrite app_nil_r.
  - rewrite filter_cons. destruct (decide (t ∈ seen)) as [Hin|Hout].
    + rewrite IH. destruct (decide (t ∉ seen)) as [Hc|_]; [done|].
      by rewrite filter_seen_drop.
    + rewrite IH. destruct (decide (t ∉ seen)) as [_|Hc]; [|done].
      rewrite <- app_assoc. simpl. by rewrite filter_not_in_union.
Qed.

Lemma validate_toppings_valid (l : list string) :
  all_valid l → validate_toppings l = Ok (keep_first_occurrences l).
Proof.
  intros Hv. unfold validate_toppings.
  rewrite validate_toppings_check_valid by done. simpl.
  rewrite validate_toppings_dedup_spec. simpl.
  f_equal. induction (keep_first_occurrences l) as [|a k IH]; [done|].
  rewrite filter_cons. destruct (decide (a ∉ (∅ : gset string))) as [_|Hc].
  - by rewrite IH.
  - exfalso. apply Hc. set_solver.
Qed.

Lemma validate_toppings_invalid (l1 l2 : list string) (t : string) :
  all_valid l1 → t ∉ TOPPINGS →
  validate_toppings (l1 ++ t :: l2) = Raise (InvalidTopping t).
Proof.
  intros Hv Ht. unfold validate_toppings.
  by rewrite validate_toppings_check_invalid.
Qed.

Lemma elem_of_keep_first_occurrences (l : list string) (x : string) :
  x ∈ keep_first_occurrences l ↔ x ∈ l.
Proof.
  induction l as [|a l IH]; simpl; [done|].
  rewrite !elem_of_cons, list_elem_of_filter, IH.
  destruct (decide (x = a)); naive_solver.
Qed.

Lemma NoDup_keep_first_occurrences (l : list string) :
  NoDup (keep_first_occurrences l).
Proof.
  induction l as [|a l IH]; simpl; constructor.
  - rewrite list_elem_of_filter. naive_solver.
  - by apply NoDup_filter.
Qed.

Lemma sublist_keep_first_occurrences (l : list string) :
  keep_first_occurrences l `sublist_of` l.
Proof.
  induction l as [|a l IH]; simpl; [done|].
  apply sublist_skip. etrans; [apply sublist_filter|done].
Qed.

Lemma keep_first_occurrences_NoDup (l : list string) :
  NoDup l → keep_first_occurrences l = l.
Proof.
  induction l as [|a l IH]; intros Hnd; simpl; [done|].
  inversion Hnd as [|? ? Ha Hl]; subst.
  rewrite IH by done. f_equal.
  clear IH Hl Hnd. induction l as [|b l IH]; [done|].
  rewrite filter_cons. destruct (decide (b ≠ a)) as [_|Hc].
  - f_equal. apply IH. intros Hin. apply Ha. by apply list_elem_of_further.
  - exfalso. apply Ha. destruct (decide (b = a)) as [->|Hne].
    + apply list_elem_of_here.
    + by destruct Hc.
Qed.

Lemma length_keep_first_occurrences (l : list string) :
  length (keep_first_occurrences l) = distinct_count l.
Proof.
  unfold distinct_count.
  rewrite <- (size_list_to_set (C := gset string) (keep_first_occurrences l))
    by apply NoDup_keep_first_occurrences.
  f_equal. apply set_eq. intros x.
  by rewrite !elem_of_list_to_set, elem_of_keep_first_occurrences.
Qed.

(** C7: [validate_toppings] raises [InvalidTopping(t)] for the first entry
    [t], from the left, that is not in the catalog.  On a list of catalog
    names it returns the list without its duplicates: each name is kept at its
    first occurrence and in the order of the input (the result has no
    duplicates, the same entries as the input, and is a subsequence of it).
    It is idempotent: a duplicate-free list of catalog names is returned
    unchanged, and its own result validates to itself.  On
    [["pepperoni"; "pepperoni"; "bacon"]] it returns
    [["pepperoni"; "bacon"]]. *)
Theorem validate_toppings_correct (toppings : list string) :
  (∀ l1 t l2, toppings = l1 ++ t :: l2 → all_valid l1 → t ∉ TOPPINGS →
     validate_toppings toppings = Raise (InvalidTopping t))
  ∧ (all_valid toppings →
     ∃ dedup, validate_toppings toppings = Ok dedup
       ∧ dedup = keep_first_occurrences toppings
       ∧ NoDup dedup
       ∧ (∀ t, t ∈ dedup ↔ t ∈ toppings)
       ∧ dedup `sublist_of` toppings
       ∧ validate_toppings dedup = Ok dedup)
  ∧ (all_valid toppings → NoDup toppings →
     validate_toppings toppings = Ok toppings)
  ∧ validate_toppings ["pepperoni"; "pepperoni"; "bacon"]%string
    = Ok ["pepperoni"; "bacon"]%string.
Proof.
  split; [|split; [|split]].
  - intros l1 t l2 -> Hv Ht. by apply validate_toppings_invalid.
  - intros Hv. exists (keep_first_occurrences toppings).
    split; [by apply validate_toppings_valid|].
    split; [done|].
    split; [apply NoDup_keep_first_occurrences|].
    split; [apply elem_of_keep_first_occurrences|].
    split; [apply sublist_keep_first_occurrences|].
    rewrite validate_toppings_valid.
    + f_equal. apply keep_first_occurrences_NoDup,
        NoDup_keep_first_occurrences.
    + unfold all_valid in *. rewrite Forall_forall in *.
      intros x Hx. apply Hv. by apply elem_of_keep_first_occurrences.
  - intros Hv Hnd. rewrite validate_toppings_valid by done.
    f_equal. by apply keep_first_occurrences_NoDup.
  - by vm_compute.
Qed.

(** Closed decidable facts (membership in the catalog, validity of a given
    list) are settled by evaluation. *)
Ltac by_decide := apply (bool_decide_unpack _); vm_compute; exact I.

Lemma validate_toppings_correct_witness :
  validate_toppings ["ham"; "anchovy"; "kale"]%string
  = Raise (InvalidTopping "anchovy")
  ∧ (∃ dedup, validate_toppings ["ham"; "bacon"; "ham"]%string = Ok dedup
       ∧ dedup = keep_first_occurrences ["ham"; "bacon"; "ham"]%string
       ∧ NoDup dedup
       ∧ (∀ t, t ∈ dedup ↔ t ∈ ["ham"; "bacon"; "ham"]%string)
       ∧ dedup `sublist_of` ["ham"; "bacon"; "ham"]%string
       ∧ validate_toppings dedup = Ok dedup)
  ∧ validate_toppings ["onions"; "ham"]%string = Ok ["onions"; "ham"]%string.
Proof.
  split; [|split].
  - apply (proj1 (validate_toppings_correct _) ["ham"]%string "anchovy"%string
             ["kale"]%string); [reflexivity | by_decide | by_decide].
  - apply (proj1 (proj2 (validate_toppings_correct _))). by_decide.
  - apply (proj1 (proj2 (proj2 (validate_toppings_correct _))));
      by_decide.
Defined.

(** ** Pizza price *)

Lemma price_pizza_valid (custom : PizzaCustomization.t) :
  all_valid (PizzaCustomization.toppings custom) →
  price_pizza custom
  = Ok (Py.round
          (pizza_sum custom
             (distinct_count (PizzaCustomization.toppings custom))) 2).
Proof.
  intros Hv. unfold price_pizza. rewrite validate_toppings_valid by done.
  simpl. by rewrite length_keep_first_occurrences.
Qed.

Lemma price_pizza_invalid (custom : PizzaCustomization.t) l1 t l2 :
  PizzaCustomization.toppings custom = l1 ++ t :: l2 →
  all_valid l1 → t ∉ TOPPINGS →
  price_pizza custom = Raise (InvalidTopping t).
Proof.
  intros Heq Hv Ht. unfold price_pizza.
  by rewrite Heq, validate_toppings_invalid.
Qed.

(** *** The price in cents *)

(** With at most 12 toppings the float sum does not drift: its rounding is
    the float nearest to the exact decimal price. *)
Lemma pizza_sum_exact (custom : PizzaCustomization.t) (n : nat) :
  (n <= 12)%nat →
  Py.round (pizza_sum custom n) 2 = float_of_cents (pizza_cents custom n).
Proof.
  intros Hn. destruct custom as [s c sa ch b cu f d tops ins].
  unfold pizza_sum, pizza_cents, float_of_cents.
  cbn [PizzaCustomization.size PizzaCustomization.crust
         PizzaCustomization.cheese PizzaCustomization.crust_flavor
         PizzaCustomization.drizzle].
  clear sa b cu tops ins.
  destruct s, c, ch, f, d;
    do 13 (destruct n as [|n]; [vm_compute; reflexivity|]); lia.
Qed.

Lemma distinct_count_valid (l : list string) :
  all_valid l → (distinct_count l <= 12)%nat.
Proof.
  intros Hv. rewrite <- length_keep_first_occurrences.
  change 12%nat with (length TOPPINGS). apply submseteq_length.
  apply NoDup_submseteq; [apply NoDup_keep_first_occurrences|].
  intros t Ht. rewrite elem_of_keep_first_occurrences in Ht.
  unfold all_valid in Hv. rewrite Forall_forall in Hv. by apply Hv.
Qed.

Lemma price_pizza_exact (custom : PizzaCustomization.t) :
  all_valid (PizzaCustomization.toppings custom) →
  price_pizza custom
  = Ok (float_of_cents
          (pizza_cents custom
             (distinct_count (PizzaCustomization.toppings custom)))).
Proof.
  intros Hv. rewrite price_pizza_valid by done.
  rewrite pizza_sum_exact; [done|]. by apply distinct_count_valid.
Qed.

(** C1: for a customization whose toppings are all in the 12-name catalog,
    [price_pizza] returns the size base price plus the crust surcharge, the
    cheese adjustment, the crust-flavor surcharge, the drizzle surcharge and
    1.25 times the number of distinct toppings, rounded to 2 decimals.  If
    some topping is not in the catalog it raises [InvalidTopping], naming the
    first such topping.  The price is a function of the customization
    alone, and for catalog toppings it is the float nearest to the exact
    decimal amount. *)
Theorem price_pizza_correct (custom : PizzaCustomization.t) :
  length TOPPINGS = 12%nat
  ∧ (all_valid (PizzaCustomization.toppings custom) →
     price_pizza custom
     = Ok (Py.round
             (PRICES.size (PizzaCustomization.size custom)
              + PRICES.crust (PizzaCustomization.crust custom)
              + PRICES.cheese (PizzaCustomization.cheese custom)
              + PRICES.crust_flavor (PizzaCustomization.crust_flavor custom)
              + PRICES.drizzle (PizzaCustomization.drizzle custom)
              + 1.25 * Py.float_of_int
                         (Z.of_nat
                            (distinct_count
                               (PizzaCustomization.toppings custom))))%float
             2))
  ∧ (¬ all_valid (PizzaCustomization.toppings custom) →
     ∃ l1 t l2,
       PizzaCustomization.toppings custom = l1 ++ t :: l2
       ∧ all_valid l1 ∧ (t ∉ TOPPINGS)
       ∧ price_pizza custom = Raise (InvalidTopping t))
  ∧ (∀ custom', custom' = custom → price_pizza custom' = price_pizza custom)
  ∧ (all_valid (PizzaCustomization.toppings custom) →
     price_pizza custom
     = Ok (float_of_cents
             (pizza_cents custom
                (distinct_count (PizzaCustomization.toppings custom))))).
Proof.
  split; [reflexivity|]. split; [|split; [|split]].
  - apply price_pizza_valid.
  - intros Hn. destruct (first_invalid _ Hn) as (l1 & t & l2 & Heq & Hv & Ht).
    exists l1, t, l2. repeat split; try done.
    by eapply price_pizza_invalid.
  - by intros ? ->.
  - apply price_pizza_exact.
Qed.

Lemma price_pizza_correct_witness :
  price_pizza (sample_pizza ["bacon"; "ham"; "bacon"]%string) = Ok 21.45%float
  ∧ (∃ l1 t l2,
       ["bacon"; "tofu"]%string = l1 ++ t :: l2
       ∧ all_valid l1 ∧ (t ∉ TOPPINGS)
       ∧ price_pizza (sample_pizza ["bacon"; "tofu"]%string)
         = Raise (InvalidTopping t)).
Proof.
  split.
  - etrans.
    + apply (proj1 (proj2 (price_pizza_correct
                             (sample_pizza ["bacon"; "ham"; "bacon"]%string)))).
      by_decide.
    + vm_compute. reflexivity.
  - apply (proj1 (proj2 (proj2 (price_pizza_correct
                                  (sample_pizza ["bacon"; "tofu"]%string))))).
    intros Hv. inversion Hv as [|? ? _ Hv']. inversion Hv' as [|? ? Ht _].
    revert Ht. by_decide.
Defined.

(** ** Cart subtotal and totals *)

Lemma item_unit_price_valid (it : CartItem) :
  item_valid it →
  item_unit_price it = Ok (unit_price_of it)
  ∧ ∃ x, unit_price_of it = Py.round x 2.
Proof.
  intros Hv. unfold unit_price_of. destruct it as [p|d]; simpl in *.
  - rewrite price_pizza_valid by done. eauto.
  - unfold price_drink. eauto.
Qed.

Lemma cart_subtotal_step_valid (total : float) (it : CartItem) :
  item_valid it →
  cart_subtotal_step total it = Ok (total + line_total_of it)%float.
Proof.
  intros Hv. destruct (item_unit_price_valid it Hv) as [Hu _].
  unfold line_total_of. destruct it as [p|d]; simpl in *.
  - by rewrite Hu.
  - reflexivity.
Qed.

Lemma cart_subtotal_loop_valid (items : list CartItem) (total : float) :
  Forall item_valid items →
  cart_subtotal_loop items total
  = Ok (float_sum_from total (line_total_of <$> items)).
Proof.
  unfold cart_subtotal_loop. revert total.
  induction items as [|it rest IH]; intros total Hv; [done|].
  inversion Hv as [|? ? Hit Hrest]; subst. simpl.
  rewrite cart_subtotal_step_valid by done. simpl. by apply IH.
Qed.

Lemma cart_subtotal_valid (cart : Cart.t) :
  Forall item_valid (Cart.items cart) →
  cart_subtotal cart
  = Ok (Py.round (float_sum (line_total_of <$> Cart.items cart)) 2).
Proof.
  intros Hv. unfold cart_subtotal.
  by rewrite cart_subtotal_loop_valid.
Qed.

(** The first item the helpers reject makes the subtotal raise. *)
Lemma cart_subtotal_step_invalid (total : float) (it : CartItem) :
  ¬ item_valid it → ∃ t, cart_subtotal_step total it = Raise (InvalidTopping t).
Proof.
  destruct it as [p|d]; simpl; intros Hn; [|by destruct Hn].
  destruct (first_invalid _ Hn) as (l1 & t & l2 & Heq & Hv & Ht).
  exists t. by rewrite (price_pizza_invalid _ _ _ _ Heq Hv Ht).
Qed.

Lemma compute_totals_of (cart : Cart.t) (subtotal : float) :
  cart_subtotal cart = Ok subtotal →
  compute_totals cart = Ok (totals_of subtotal).
Proof. intros Hs. unfold compute_totals. by rewrite Hs. Qed.

Lemma compute_totals_valid (cart : Cart.t) :
  Forall item_valid (Cart.items cart) →
  ∃ totals, compute_totals cart = Ok totals.
Proof.
  intros Hv. eexists. apply compute_totals_of. by apply cart_subtotal_valid.
Qed.

(** C5: whenever the cart has a subtotal (it has one as soon as its pizzas
    carry catalog toppings only), [compute_totals] returns that subtotal,
    [tax = round(subtotal * 0.0825, 2)] and [total = round(subtotal + tax, 2)],
    that is [total = round(subtotal + round(subtotal * tax_rate, 2), 2)]. *)
Theorem compute_totals_correct (cart : Cart.t) :
  (∀ subtotal, cart_subtotal cart = Ok subtotal →
     ∃ totals, compute_totals cart = Ok totals
       ∧ Totals.subtotal totals = subtotal
       ∧ Totals.tax totals = Py.round (subtotal * 0.0825)%float 2
       ∧ Totals.total totals
         = Py.round (subtotal + Totals.tax totals)%float 2
       ∧ Totals.total totals
         = Py.round
             (subtotal + Py.round (subtotal * PRICES.tax_rate)%float 2)%float 2)
  ∧ (Forall item_valid (Cart.items cart) →
     ∃ subtotal, cart_subtotal cart = Ok subtotal).
Proof.
  split.
  - intros subtotal Hs. exists (totals_of subtotal).
    split; [by apply compute_totals_of|]. by repeat split.
  - intros Hv. eexists. by apply cart_subtotal_valid.
Qed.

Lemma compute_totals_correct_witness :
  compute_totals two_small_pizzas = Ok (Totals.mk 20.00 1.65 21.65)
  ∧ ∃ subtotal, cart_subtotal two_small_pizzas = Ok subtotal.
Proof.
  split.
  - destruct (proj1 (compute_totals_correct two_small_pizzas) 20.00%float)
      as (totals & -> & Hsub & Htax & Htot & _).
    + vm_compute. reflexivity.
    + destruct totals as [s t u]. simpl in *. subst s t u.
      vm_compute. reflexivity.
  - apply (proj2 (compute_totals_correct two_small_pizzas)).
    repeat constructor.
Defined.

(** *** Rounding of line totals *)

Lemma float_sum_from_run (f : CartItem -> float) (it : CartItem) (n : positive)
    (rest : list CartItem) (acc : float) :
  float_sum_from acc (f <$> Pos.iter (cons it) rest n)
  = float_sum_from (Pos.iter (fun t => t + f it)%float acc n) (f <$> rest).
Proof.
  revert acc. induction n as [|n IH] using Pos.peano_ind; intros acc.
  - reflexivity.
  - rewrite !Pos.iter_succ. cbn [fmap list_fmap].
    unfold float_sum_from in *. cbn [fold_left].
    rewrite IH. f_equal.
    exact (Pos.iter_swap n float (fun t => t + f it)%float acc).
Qed.

Lemma float_sum_from_expand (f : CartItem -> float)
    (runs : list (CartItem * positive)) (acc : float) :
  float_sum_from acc (f <$> expand runs) = float_sum_runs f runs acc.
Proof.
  revert acc. induction runs as [|[it n] runs IH]; intros acc; [done|].
  cbn [expand fold_right fst snd]. rewrite float_sum_from_run.
  fold (expand runs). rewrite IH. reflexivity.
Qed.

Lemma Forall_expand (P : CartItem -> Prop) (runs : list (CartItem * positive)) :
  Forall (fun run => P run.1) runs → Forall P (expand runs).
Proof.
  induction 1 as [|[it n] runs Hit _ IH]; [constructor|].
  cbn [expand fold_right fst snd] in *. fold (expand runs).
  induction n as [|n IHn] using Pos.peano_ind.
  - cbn [Pos.iter]. by constructor.
  - rewrite Pos.iter_succ. by constructor.
Qed.

Lemma long_cart_valid : Forall item_valid (Cart.items long_cart).
Proof.
  apply Forall_expand. unfold long_cart_runs.
  repeat (constructor; [constructor|]). constructor.
Qed.

Lemma long_cart_lines :
  fold_right (fun run n => (Npos run.2 + n)%N) 0%N long_cart_runs = 793784%N.
Proof. reflexivity. Qed.

Lemma Ok_inj {A : Type} (a b : A) : Ok a = Ok b → a = b.
Proof.
  intros H.
  exact (f_equal (fun r => match r with Ok x => x | Raise _ => a end) H).
Qed.

(** Two floats with different decodings are different. *)
Lemma float_neq (a b : float) : Prim2SF a ≠ Prim2SF b → a ≠ b.
Proof. intros Hn ->. by apply Hn. Qed.

Lemma long_cart_subtotal : cart_subtotal long_cart = Ok 334818033.30%float.
Proof.
  rewrite cart_subtotal_valid by apply long_cart_valid.
  unfold float_sum, long_cart. cbn [Cart.items].
  rewrite float_sum_from_expand. vm_compute. reflexivity.
Qed.

Lemma long_cart_rounded_lines :
  cart_subtotal_rounded_lines long_cart = 334818033.31%float.
Proof.
  unfold cart_subtotal_rounded_lines, float_sum, long_cart. cbn [Cart.items].
  rewrite float_sum_from_expand. vm_compute. reflexivity.
Qed.

(** C6, as stated, fails: on [long_cart] the subtotal of the program and the
    sum of the rounded line totals are one cent apart. *)
Lemma cart_subtotal_not_rounded_lines :
  Forall item_valid (Cart.items long_cart)
  ∧ cart_subtotal long_cart ≠ Ok (cart_subtotal_rounded_lines long_cart).
Proof.
  split; [apply long_cart_valid|].
  rewrite long_cart_subtotal, long_cart_rounded_lines.
  intros Heq. apply Ok_inj in Heq. revert Heq.
  apply float_neq. vm_compute. discriminate.
Qed.

(** C6 (amended): for a cart whose pizzas carry catalog toppings only,
    [cart_subtotal] is the float sum, in cart order and starting from 0.0, of
    [unit_price * quantity] over the items, rounded to 2 decimals.  Each
    unit price is itself a value rounded to 2 decimals; the line totals are
    added as they are, without rounding. *)
Theorem cart_subtotal_correct (cart : Cart.t) :
  Forall item_valid (Cart.items cart) →
  cart_subtotal cart
  = Ok (Py.round
          (fold_left
             (fun total it =>
                total + unit_price_of it * Py.float_of_int (item_qty it))%float
             (Cart.items cart) 0%float) 2)
  ∧ Forall (fun it => item_unit_price it = Ok (unit_price_of it)
                      ∧ ∃ x, unit_price_of it = Py.round x 2)
      (Cart.items cart).
Proof.
  intros Hv. split.
  - rewrite cart_subtotal_valid by done. do 2 f_equal.
    unfold float_sum, float_sum_from. clear Hv. generalize 0%float.
    induction (Cart.items cart) as [|it rest IH]; intros acc; [done|].
    cbn [fmap list_fmap fold_left]. exact (IH _).
  - eapply Forall_impl; [exact Hv|]. apply item_unit_price_valid.
Qed.

Lemma cart_subtotal_correct_witness :
  cart_subtotal two_small_pizzas = Ok 20.00%float.
Proof.
  etrans.
  - apply (cart_subtotal_correct two_small_pizzas). repeat constructor.
  - vm_compute. reflexivity.
Defined.

(** ** Mock payment authorisation *)

(** *** Suffixes of strings *)

Lemma substring_0_length (s : string) : substring 0 (String.length s) s = s.
Proof. induction s as [|c s IH]; simpl; [done|]. by rewrite IH. Qed.


Lemma length_app_string (a b : string) :
  String.length (a +:+ b) = (String.length a + String.length b)%nat.
Proof. induction a as [|c a IH]; simpl; [done|]. by rewrite IH. Qed.

Lemma substring_split (s : string) (n : nat) :
  (n <= String.length s)%nat →
  s = substring 0 n s +:+ substring n (String.length s - n) s.
Proof.
  revert n. induction s as [|c s IH]; intros [|n] Hn; simpl in *; try lia.
  - done.
  - by rewrite substring_0_length.
  - change (String c s
            = String c (substring 0 n s
                        +:+ substring n (String.length s - n) s)).
    f_equal. apply IH. lia.
Qed.

Lemma length_substring (s : string) (n m : nat) :
  (n + m <= String.length s)%nat → String.length (substring n m s) = m.
Proof.
  revert n m. induction s as [|c s IH]; intros [|n] [|m] Hn; simpl in *;
    try lia; try done.
  - f_equal. apply (IH 0%nat). lia.
  - apply IH. lia.
  - apply IH. lia.
Qed.

(** [s[-n:]] is the suffix of length [n] when [s] has that many characters. *)
Lemma take_last_suffix (n : nat) (s : string) :
  (n <= Py.len s)%nat →
  ∃ pre, s = pre +:+ Py.take_last n s ∧ Py.len (Py.take_last n s) = n.
Proof.
  unfold Py.take_last, Py.len. intros Hn.
  exists (substring 0 (String.length s - n) s). split.
  - rewrite (substring_split s (String.length s - n)) at 1 by lia.
    do 2 f_equal. lia.
  - apply length_substring. lia.
Qed.



(** *** The decision table *)

Lemma validate_required_card (payment : PaymentInfo.t) :
  PaymentInfo.method payment = card →
  validate_required payment = Ok tt →
  ∃ exp_year exp_month,
    PaymentInfo.exp_year payment = Some exp_year
    ∧ PaymentInfo.exp_month payment = Some exp_month.
Proof.
  unfold validate_required, missing_card_fields. intros ->.
  destruct (PaymentInfo.exp_year payment) as [y|],
    (PaymentInfo.exp_month payment) as [m|];
    destruct (missing_str (PaymentInfo.card_number payment)),
      (missing_str (PaymentInfo.cvv payment)),
      (missing_str (PaymentInfo.zip_code payment));
    cbn; intros H; try discriminate H; eauto.
Qed.



(** The guards do their work: the authoriser never compares [None]. *)
Lemma mock_authorize_guarded (now : datetime.t) (uuid4_hex : string)
    (payment : PaymentInfo.t) (amount : float) :
  mock_authorize now uuid4_hex payment amount ≠ Raise InternalServerError.
Proof.
  unfold mock_authorize.
  destruct (validate_required payment) as [[]|e] eqn:Hreq; cbn [bind].
  - destruct (PaymentInfo.method payment) eqn:Hm.
    + destruct (validate_required_card _ Hm Hreq) as (y & m & -> & ->).
      repeat case_match; discriminate.
    + discriminate.
    + case_match; discriminate.
  - intros [= ->]. revert Hreq. unfold validate_required.
    repeat case_match; cbn [bind]; discriminate.
Qed.

(** *** Digits of a card number *)







(** ** Cart store *)

Lemma lookup_set_items (cart_id : string) (cart : Cart.t)
    (items : list CartItem) (st : Store.t) (other : string) :
  Store.CARTS (Store.set_items cart_id cart items st) !! other
  = if decide (cart_id = other)
    then Some (Cart.mk (Cart.cart_id cart) items)
    else Store.CARTS st !! other.
Proof. unfold Store.set_items. cbn [Store.CARTS]. apply lookup_insert. Qed.

Lemma cart_response_valid (cart : Cart.t) :
  Forall item_valid (Cart.items cart) →
  ∃ totals, cart_response cart = Ok (CartResponse.mk cart totals).
Proof.
  intros Hv. destruct (compute_totals_valid cart Hv) as [totals Ht].
  exists totals. unfold cart_response. by rewrite Ht.
Qed.

(** The only exception pricing raises is [InvalidTopping]. *)
Lemma cart_subtotal_step_raises (total : float) (it : CartItem)
    (e : HTTPException) :
  cart_subtotal_step total it = Raise e → ∃ t, e = InvalidTopping t.
Proof.
  intros Hstep. destruct it as [p|d]; [|discriminate Hstep].
  destruct (decide (all_valid (PizzaCustomization.toppings
                                 (CartPizzaItem.customization p)))) as [Hv|Hn].
  - rewrite (cart_subtotal_step_valid total (Pizza p) Hv) in Hstep.
    discriminate Hstep.
  - destruct (cart_subtotal_step_invalid total (Pizza p) Hn) as [t Ht].
    exists t. rewrite Ht in Hstep. by injection Hstep as <-.
Qed.

Lemma cart_response_raises (cart : Cart.t) (e : HTTPException) :
  cart_response cart = Raise e → ∃ t, e = InvalidTopping t.
Proof.
  unfold cart_response, compute_totals, cart_subtotal, cart_subtotal_loop.
  generalize 0%float. induction (Cart.items cart) as [|it rest IH];
    intros total; cbn [for_each bind]; [discriminate|].
  destruct (cart_subtotal_step total it) as [t|e'] eqn:Hstep; cbn [bind].
  - apply IH.
  - intros [= <-]. by eapply cart_subtotal_step_raises.
Qed.

(** [update_qty] never indexes out of range. *)
Lemma update_qty_guarded (cart_id : string) (req : UpdateQtyRequest.t)
    (st : Store.t) :
  fst (update_qty cart_id req st) ≠ Raise InternalServerError.
Proof.
  unfold update_qty. destruct (Store.CARTS st !! cart_id) as [cart|];
    [|discriminate].
  destruct (Nat.leb_spec (length (Cart.items cart))
              (UpdateQtyRequest.index req)) as [Hge|Hlt]; [discriminate|].
  destruct (lookup_lt_is_Some_2 _ _ Hlt) as [item ->]. cbn [fst].
  intros Hr. apply cart_response_raises in Hr as [t Ht]. discriminate Ht.
Qed.

(** C9: on an existing cart, [add_drink] with the drink ["none"] raises
    [InvalidDrinkSelection] and leaves the store, hence the items of the cart,
    as they were.  With any other drink the cart under [cart_id] keeps its
    items and gets the new one at the end; the other carts and the orders are
    untouched, and the response carries the new cart with its totals. *)
Theorem add_drink_correct (cart_id : string) (item : CartDrinkItem.t)
    (st : Store.t) (cart : Cart.t) :
  Store.CARTS st !! cart_id = Some cart →
  (CartDrinkItem.drink item = drink_none →
   add_drink cart_id item st = (Raise InvalidDrinkSelection, st))
  ∧ (CartDrinkItem.drink item ≠ drink_none →
     let cart' := Cart.mk (Cart.cart_id cart) (Cart.items cart ++ [Drink item]) in
     let st' := snd (add_drink cart_id item st) in
     Store.CARTS st' !! cart_id = Some cart'
     ∧ Cart.items cart' !! length (Cart.items cart) = Some (Drink item)
     ∧ (∀ i, (i < length (Cart.items cart))%nat →
          Cart.items cart' !! i = Cart.items cart !! i)
     ∧ length (Cart.items cart') = S (length (Cart.items cart))
     ∧ (∀ other, other ≠ cart_id →
          Store.CARTS st' !! other = Store.CARTS st !! other)
     ∧ Store.ORDERS st' = Store.ORDERS st
     ∧ fst (add_drink cart_id item st) = cart_response cart').
Proof.
  intros Hcart. unfold add_drink. rewrite Hcart. split.
  - by intros ->.
  - intros Hd.
    assert (∀ (A : Type) (x y : A),
              match CartDrinkItem.drink item with
              | drink_none => x | _ => y end = y) as Hmatch.
    { intros A x y. by destruct (CartDrinkItem.drink item). }
    rewrite Hmatch. cbn [fst snd Cart.items].
    split; [|split; [|split; [|split; [|split; [|split]]]]].
    + rewrite lookup_set_items. by rewrite decide_True.
    + rewrite lookup_app_r by lia. by rewrite Nat.sub_diag.
    + intros i Hi. by rewrite lookup_app_l.
    + rewrite length_app. simpl. lia.
    + intros other Hne. rewrite lookup_set_items. by rewrite decide_False.
    + reflexivity.
    + reflexivity.
Qed.

Lemma add_drink_correct_witness :
  add_drink "cart_0123456789ab" (CartDrinkItem.mk drink_none 1)
    (store_with two_small_pizzas)
  = (Raise InvalidDrinkSelection, store_with two_small_pizzas)
  ∧ Store.CARTS
      (snd (add_drink "cart_0123456789ab" (CartDrinkItem.mk water 3)
              (store_with two_small_pizzas))) !! "cart_0123456789ab"%string
    = Some (Cart.mk "cart_0123456789ab"
              (Cart.items two_small_pizzas
               ++ [Drink (CartDrinkItem.mk water 3)])).
Proof.
  split.
  - apply (add_drink_correct "cart_0123456789ab"
             (CartDrinkItem.mk drink_none 1) (store_with two_small_pizzas)
             two_small_pizzas); reflexivity.
  - apply (add_drink_correct "cart_0123456789ab" (CartDrinkItem.mk water 3)
             (store_with two_small_pizzas) two_small_pizzas);
      [reflexivity | discriminate].
Defined.

(** C8: on an existing cart and an index below the number of items,
    [remove_item] takes out exactly the item at that position: the items
    before it stay where they are, every later item moves down by one, and
    nothing else in the store changes.  It raises [CartNotFound] when the cart
    id is unknown and [InvalidIndex] when the index is not below the number of
    items, and then leaves the store as it was. *)
Theorem remove_item_correct (cart_id : string) (req : RemoveItemRequest.t)
    (st : Store.t) :
  let index := RemoveItemRequest.index req in
  (Store.CARTS st !! cart_id = None →
   remove_item cart_id req st = (Raise CartNotFound, st))
  ∧ (∀ cart, Store.CARTS st !! cart_id = Some cart →
       ((length (Cart.items cart) <= index)%nat →
        remove_item cart_id req st = (Raise InvalidIndex, st))
       ∧ ((index < length (Cart.items cart))%nat →
          let items' := delete index (Cart.items cart) in
          let st' := snd (remove_item cart_id req st) in
          Store.CARTS st' !! cart_id = Some (Cart.mk (Cart.cart_id cart) items')
          ∧ length items' = (length (Cart.items cart) - 1)%nat
          ∧ (∀ j, (j < index)%nat → items' !! j = Cart.items cart !! j)
          ∧ (∀ j, (index <= j)%nat → items' !! j = Cart.items cart !! S j)
          ∧ (∀ other, other ≠ cart_id →
               Store.CARTS st' !! other = Store.CARTS st !! other)
          ∧ Store.ORDERS st' = Store.ORDERS st
          ∧ fst (remove_item cart_id req st)
            = cart_response (Cart.mk (Cart.cart_id cart) items'))).
Proof.
  intros index. unfold remove_item. fold index. split.
  - by intros ->.
  - intros cart ->. split.
    + intros Hge. apply Nat.leb_le in Hge. by rewrite Hge.
    + intros Hlt. apply Nat.leb_gt in Hlt as Hlt'. rewrite Hlt'.
      cbn [fst snd].
      split; [|split; [|split; [|split; [|split; [|split]]]]].
      * rewrite lookup_set_items. by rewrite decide_True.
      * rewrite length_delete; [lia|]. by apply lookup_lt_is_Some.
      * intros j Hj. by apply list_lookup_delete_lt.
      * intros j Hj. by apply list_lookup_delete_ge.
      * intros other Hne. rewrite lookup_set_items. by rewrite decide_False.
      * reflexivity.
      * reflexivity.
Qed.

Lemma remove_item_correct_witness :
  Cart.items three_lines !! 2%nat = Some (Drink (CartDrinkItem.mk coke 2))
  ∧ (∃ cart',
       Store.CARTS
         (snd (remove_item "cart_0123456789ab" (RemoveItemRequest.mk 1)
                 (store_with three_lines))) !! "cart_0123456789ab"%string
       = Some cart'
       ∧ Cart.items cart' !! 1%nat = Some (Drink (CartDrinkItem.mk coke 2))
       ∧ length (Cart.items cart') = 2%nat)
  ∧ remove_item "cart_0123456789ab" (RemoveItemRequest.mk 3)
      (store_with three_lines)
    = (Raise InvalidIndex, store_with three_lines)
  ∧ remove_item "cart_unknown" (RemoveItemRequest.mk 0)
      (store_with three_lines)
    = (Raise CartNotFound, store_with three_lines).
Proof.
  split; [reflexivity|]. split; [|split].
  - destruct (proj2 (remove_item_correct "cart_0123456789ab"
                       (RemoveItemRequest.mk 1) (store_with three_lines))
                three_lines eq_refl) as [_ Hin].
    destruct Hin as (Hcart & Hlen & _ & Hshift & _).
    + cbn. lia.
    + eexists. split; [exact Hcart|]. split.
      * cbn [Cart.items]. rewrite Hshift by (cbn; lia). reflexivity.
      * exact Hlen.
  - apply (proj2 (remove_item_correct "cart_0123456789ab"
                    (RemoveItemRequest.mk 3) (store_with three_lines))
             three_lines eq_refl).
    cbn. lia.
  - apply (proj1 (remove_item_correct "cart_unknown"
                    (RemoveItemRequest.mk 0) (store_with three_lines))).
    reflexivity.
Defined.

(** ** Exact amounts of a line *)

Lemma pizza_cents_range (custom : PizzaCustomization.t) (n : nat) :
  (n <= 12)%nat →
  950 <= pizza_cents custom n <= 3720 ∧ (5 | pizza_cents custom n).
Proof.
  intros Hn. unfold pizza_cents.
  destruct (PizzaCustomization.size custom),
    (PizzaCustomization.crust custom), (PizzaCustomization.cheese custom),
    (PizzaCustomization.crust_flavor custom),
    (PizzaCustomization.drizzle custom);
    (split; [cbn; lia|]);
    repeat apply Z.divide_add_r;
    first [ apply Z.divide_mul_l; by exists 25
          | apply Z.mod_divide; [lia | reflexivity] ].
Qed.

Lemma price_drink_exact (d : DrinkType) :
  price_drink d = float_of_cents (drink_cents d).
Proof. destruct d; vm_compute; reflexivity. Qed.

Lemma item_unit_price_exact (it : CartItem) :
  item_valid it →
  item_unit_price it = Ok (float_of_cents (item_cents it))
  ∧ item_cents it ∈ unit_price_cases.
Proof.
  unfold unit_price_cases.
  destruct it as [p|d]; cbn [item_valid item_unit_price item_cents].
  - intros Hv. split; [by apply price_pizza_exact|].
    destruct (pizza_cents_range (CartPizzaItem.customization p) _
                (distinct_count_valid _ Hv)) as [Hr [k Hk]].
    apply elem_of_app. right. apply list_elem_of_fmap. exists k.
    split; [lia|]. apply elem_of_seqZ. lia.
  - intros _. split; [by rewrite price_drink_exact|].
    apply elem_of_app. left.
    destruct (CartDrinkItem.drink d); cbn [drink_cents];
      rewrite !elem_of_cons; auto.
Qed.

(** Equal images of a list under two functions: the functions agree on its
    elements. *)
Lemma fmap_eq_elem {A B : Type} (f g : A -> B) (l : list A) (x : A) :
  f <$> l = g <$> l → x ∈ l → f x = g x.
Proof.
  induction l as [|a l IH]; intros Heq Hx.
  - by apply elem_of_nil in Hx.
  - cbn [fmap list_fmap] in Heq.
    apply elem_of_cons in Hx as [->|Hx].
    + exact (f_equal (fun k => match k with y :: _ => y | [] => f a end) Heq).
    + apply IH; [|done].
      exact (f_equal (fun k => match k with _ :: t => t | [] => [] end) Heq).
Qed.

Lemma elem_of_price_quantity_cases (c q : Z) :
  c ∈ unit_price_cases → qty_ok q → (c, q) ∈ price_quantity_cases.
Proof.
  intros Hc Hq. unfold price_quantity_cases, qty_ok in *.
  apply list_elem_of_bind. exists c. split; [|done].
  apply list_elem_of_bind. exists q. split.
  - apply list_elem_of_here.
  - apply elem_of_seqZ. lia.
Qed.

(** On every case the roundings of [enrich_item] give the exact amounts. *)
Lemma rounded_units_exact :
  rounded_unit <$> unit_price_cases = float_of_cents <$> unit_price_cases.
Proof. vm_compute. reflexivity. Qed.

Lemma rounded_lines_exact :
  rounded_line <$> price_quantity_cases
  = exact_line_total <$> price_quantity_cases.
Proof. vm_compute. reflexivity. Qed.

Lemma enrich_item_exact (it : CartItem) :
  item_valid it → qty_ok (item_qty it) → enrich_item it = Ok (exact_line it).
Proof.
  intros Hv Hq. destruct (item_unit_price_exact it Hv) as (Hu & Hc).
  unfold enrich_item, exact_line. rewrite Hu. cbn [bind].
  assert (qty_or_1 (item_qty it) = item_qty it) as ->.
  { unfold qty_or_1, qty_ok in *. destruct (Z.eqb_spec (item_qty it) 0); lia. }
  pose proof (fmap_eq_elem _ _ _ _ rounded_units_exact Hc) as Hunit.
  pose proof (fmap_eq_elem _ _ _ _ rounded_lines_exact
                (elem_of_price_quantity_cases _ _ Hc Hq)) as Hline.
  unfold rounded_unit in Hunit.
  unfold rounded_line, exact_line_total in Hline. cbn [fst snd] in Hline.
  by rewrite Hunit, Hline.
Qed.

Lemma enrich_loop_exact (items : list CartItem)
    (enriched : list PricedItem.t) :
  Forall item_valid items →
  Forall (fun it => qty_ok (item_qty it)) items →
  enrich_loop items enriched = Ok (enriched ++ (exact_line <$> items)).
Proof.
  revert enriched. induction items as [|it rest IH]; intros enriched Hv Hq.
  - cbn. by rewrite app_nil_r.
  - inversion Hv as [|? ? Hit Hrest]; inversion Hq as [|? ? Hqi Hqrest];
      subst.
    cbn [enrich_loop]. rewrite enrich_item_exact by done. cbn [bind].
    rewrite IH by done. by rewrite <- app_assoc.
Qed.

(** ** Order ledger *)

Lemma cart_subtotal_step_priceable (total x : float) (it : CartItem) :
  cart_subtotal_step total it = Ok x → priceable it.
Proof.
  unfold priceable. destruct it as [p|d]; simpl.
  - destruct (price_pizza _) as [u|e]; [eauto|discriminate].
  - eauto.
Qed.

Lemma cart_subtotal_loop_priceable (items : list CartItem) (total x : float) :
  cart_subtotal_loop items total = Ok x → Forall priceable items.
Proof.
  unfold cart_subtotal_loop. revert total.
  induction items as [|it rest IH]; intros total; simpl; [constructor|].
  destruct (cart_subtotal_step total it) as [t'|e] eqn:Hstep; [|discriminate].
  simpl. intros Hrest. constructor.
  - by eapply cart_subtotal_step_priceable.
  - by eapply IH.
Qed.

Lemma compute_totals_priceable (cart : Cart.t) (totals : Totals.t) :
  compute_totals cart = Ok totals → Forall priceable (Cart.items cart).
Proof.
  unfold compute_totals, cart_subtotal.
  destruct (cart_subtotal_loop _ _) as [t|e] eqn:Hloop; [|discriminate].
  intros _. by eapply cart_subtotal_loop_priceable.
Qed.

Lemma enrich_loop_priceable (items : list CartItem)
    (enriched : list PricedItem.t) :
  Forall priceable items →
  ∃ priced, enrich_loop items enriched = Ok (enriched ++ priced)
    ∧ Forall2 priced_as items priced.
Proof.
  revert enriched. induction items as [|it rest IH]; intros enriched Hp.
  - exists []. simpl. rewrite app_nil_r. split; [done|constructor].
  - inversion Hp as [|? ? [unit Hunit] Hrest]; subst.
    destruct (IH (enriched
                  ++ [PricedItem.mk it (Py.round unit 2)
                        (Py.round
                           (unit * Py.float_of_int (qty_or_1 (item_qty it)))
                           2)]) Hrest)
      as (priced & Hloop & Hall).
    eexists (_ :: priced). split.
    + simpl. unfold enrich_item. rewrite Hunit. simpl.
      rewrite Hloop. by rewrite <- app_assoc.
    + constructor; [|done]. split; [done|]. by exists unit.
Qed.

Lemma enrich_order_items_priceable (items : list CartItem) :
  Forall priceable items →
  ∃ priced, enrich_order_items items = Ok priced
    ∧ Forall2 priced_as items priced.
Proof. apply enrich_loop_priceable. Qed.

(** An item that has a price is a drink or a pizza with catalog toppings. *)
Lemma priceable_valid (it : CartItem) : priceable it → item_valid it.
Proof.
  intros [unit Hunit]. destruct it as [p|d]; [|done].
  cbn [item_valid item_unit_price] in *.
  destruct (decide (all_valid (PizzaCustomization.toppings
                                 (CartPizzaItem.customization p))))
    as [Hv|Hn]; [done|].
  destruct (first_invalid _ Hn) as (l1 & t & l2 & Heq & Hv & Ht).
  rewrite (price_pizza_invalid _ _ _ _ Heq Hv Ht) in Hunit.
  discriminate Hunit.
Qed.

(** The line total of a priced line is the unit price times the quantity,
    rounded. *)
Lemma priced_as_line_total (it : CartItem) (line : PricedItem.t) :
  priced_as it line → line_total_for it line.
Proof.
  intros (_ & unit & Hunit & _ & Hline) unit' Hunit'.
  rewrite Hunit in Hunit'. apply Ok_inj in Hunit' as <-.
  rewrite Hline. unfold qty_or_1.
  destruct (Z.eqb_spec (item_qty it) 0) as [Hz|Hz]; split; intros Hq;
    try done; by rewrite Hz.
Qed.

(** C2: when [place_order] reaches the authoriser (the cart exists, has items
    and has totals) and the authoriser declines, the response is the
    non-persisted one: [ok] is false and it carries the decline with its
    reason, the cart, the totals and the customer.  The store is the one
    before the call: the cart still has exactly its items, which are not
    empty, and [get_order] answers every identifier as before, so no order
    has become retrievable. *)
Theorem place_order_declined (env : Env.t) (req : PlaceOrderRequest.t)
    (st : Store.t) (cart : Cart.t) (totals : Totals.t) (reason : string) :
  Store.CARTS st !! PlaceOrderRequest.cart_id req = Some cart →
  Cart.items cart ≠ [] →
  compute_totals cart = Ok totals →
  mock_authorize (Env.auth_now env) (Env.auth_uuid4_hex env)
    (PlaceOrderRequest.payment req) (Totals.total totals)
  = Ok (declined reason) →
  let response :=
    PaymentDeclined "Payment declined" (declined reason) cart totals
      (PlaceOrderRequest.customer req) in
  let st' := snd (place_order env req st) in
  fst (place_order env req st) = Ok response
  ∧ ok response = false
  ∧ st' = st
  ∧ Store.CARTS st' !! PlaceOrderRequest.cart_id req = Some cart
  ∧ Cart.items cart ≠ []
  ∧ (∀ order_id, get_order order_id st' = get_order order_id st)
  ∧ (∀ order_id, Store.ORDERS st !! order_id = None →
       fst (get_order order_id st') = Raise OrderNotFound).
Proof.
  intros Hcart Hitems Htotals Hauth response st'. subst response st'.
  unfold place_order. rewrite Hcart.
  destruct (Cart.items cart) as [|it rest] eqn:Hi; [done|].
  rewrite Htotals, Hauth. cbn [fst snd].
  repeat split; try done.
  intros order_id Hnone. unfold get_order. by rewrite Hnone.
Qed.

(** Only [place_order] writes to [ORDERS], and only under the identifier it
    files the order under. *)
Lemma serve_orders (r : Request) (st : Store.t) (order_id : string) :
  filed_under r ≠ Some order_id →
  Store.ORDERS (serve r st) !! order_id = Store.ORDERS st !! order_id.
Proof.
  intros Hf. destruct r; cbn [serve];
    unfold create_cart, get_cart, add_pizza, add_drink, update_qty,
      remove_item, clear_cart, place_order, get_order, Store.set_items;
    repeat case_match; cbn [snd Store.ORDERS]; try reflexivity.
  apply lookup_insert_ne. intros Heq. apply Hf. cbn [filed_under].
  by rewrite Heq.
Qed.

(** C3: when [place_order] reaches the authoriser and the authoriser
    approves, the response has [ok] true and carries the order.  The order has
    the identifier ["order_"] followed by the first 12 hexadecimal digits of a
    freshly drawn uuid, the customer of the request, one priced line per cart
    item in cart order (the item with its own unit price and line total,
    priced again from its customization), the totals computed for the cart,
    the time stamp and the status ["placed"].  The line total of a line is the
    unit price of its item times the quantity of the item, rounded to 2
    decimals, an item without a quantity being charged once; when the
    quantities are between 1 and 20 the lines carry the exact decimal
    amounts: the unit price in cents read off the price tables, and that
    price times the quantity.  [get_order] returns that same
    order under its identifier, with the totals of the response; the cart is
    still in the store and has no items; the other carts are untouched; the
    orders under other identifiers are untouched (all earlier orders, when
    the identifier was not in use); and no later request changes the order
    unless it files another order under the same identifier. *)
Theorem place_order_approved (env : Env.t) (req : PlaceOrderRequest.t)
    (st : Store.t) (cart : Cart.t) (totals : Totals.t)
    (auth_id : string) (amount : float) (card_last4 : option string) :
  let cart_id := PlaceOrderRequest.cart_id req in
  Store.CARTS st !! cart_id = Some cart →
  Cart.items cart ≠ [] →
  compute_totals cart = Ok totals →
  mock_authorize (Env.auth_now env) (Env.auth_uuid4_hex env)
    (PlaceOrderRequest.payment req) (Totals.total totals)
  = Ok (approved auth_id amount card_last4) →
  let st' := snd (place_order env req st) in
  ∃ order,
    fst (place_order env req st) = Ok (OrderPlaced order)
    ∧ ok (OrderPlaced order) = true
    ∧ OrderSummary.order_id order
      = ("order_" +:+ Py.take 12 (Env.order_uuid4_hex env))%string
    ∧ OrderSummary.customer order = PlaceOrderRequest.customer req
    ∧ Forall2 priced_as (Cart.items cart) (OrderSummary.items order)
    ∧ Forall2 line_total_for (Cart.items cart) (OrderSummary.items order)
    ∧ (Forall (fun it => qty_ok (item_qty it)) (Cart.items cart) →
       OrderSummary.items order = exact_line <$> Cart.items cart)
    ∧ OrderSummary.totals order = totals
    ∧ OrderSummary.payment order = approved auth_id amount card_last4
    ∧ OrderSummary.created_at_utc order
      = (datetime.isoformat (Env.order_now env) +:+ "Z")%string
    ∧ OrderSummary.status order = "placed"%string
    ∧ get_order (OrderSummary.order_id order) st' = (Ok order, st')
    ∧ Store.CARTS st' !! cart_id = Some (Cart.mk (Cart.cart_id cart) [])
    ∧ (∀ other, other ≠ cart_id →
         Store.CARTS st' !! other = Store.CARTS st !! other)
    ∧ (∀ other, other ≠ OrderSummary.order_id order →
         Store.ORDERS st' !! other = Store.ORDERS st !! other)
    ∧ (∀ r, filed_under r ≠ Some (OrderSummary.order_id order) →
         fst (get_order (OrderSummary.order_id order) (serve r st'))
         = Ok order).
Proof.
  intros cart_id Hcart Hitems Htotals Hauth st'. subst st'.
  pose proof (compute_totals_priceable _ _ Htotals) as Hpriceable.
  destruct (enrich_order_items_priceable (Cart.items cart) Hpriceable)
    as (priced & Henrich & Hpriced).
  assert (Forall2 line_total_for (Cart.items cart) priced) as Hlines.
  { eapply Forall2_impl; [exact Hpriced|]. apply priced_as_line_total. }
  assert (Forall (fun it => qty_ok (item_qty it)) (Cart.items cart) →
          priced = exact_line <$> Cart.items cart) as Hexact.
  { intros Hq. unfold enrich_order_items in Henrich.
    rewrite enrich_loop_exact in Henrich; [|clear Henrich|done].
    - symmetry. by apply Ok_inj in Henrich.
    - eapply Forall_impl; [exact Hpriceable|]. apply priceable_valid. }
  unfold place_order. fold cart_id. rewrite Hcart.
  destruct (Cart.items cart) as [|it rest] eqn:Hi; [done|].
  rewrite Htotals, Hauth, Henrich. cbn [fst snd].
  eexists. split; [reflexivity|].
  cbn [OrderSummary.order_id OrderSummary.customer OrderSummary.items
         OrderSummary.totals OrderSummary.payment OrderSummary.created_at_utc
         OrderSummary.status].
  do 10 (split; [done|]).
  split; [|split; [|split; [|split]]].
  - unfold get_order. cbn [Store.ORDERS]. by rewrite lookup_insert_eq.
  - cbn [Store.CARTS]. by rewrite lookup_insert_eq.
  - intros other Hne. cbn [Store.CARTS]. by rewrite lookup_insert_ne.
  - intros other Hne. cbn [Store.ORDERS]. by rewrite lookup_insert_ne.
  - intros r Hr. unfold get_order. rewrite serve_orders by done.
    cbn [Store.ORDERS]. by rewrite lookup_insert_eq.
Qed.

Lemma place_order_declined_witness :
  fst (place_order sample_env (sample_request (gift_payment "decline"))
         (store_with two_small_pizzas))
  = Ok (PaymentDeclined "Payment declined" (declined "Mock gift card declined")
          two_small_pizzas (Totals.mk 20.00 1.65 21.65) sample_customer)
  ∧ snd (place_order sample_env (sample_request (gift_payment "decline"))
           (store_with two_small_pizzas))
    = store_with two_small_pizzas.
Proof.
  destruct (place_order_declined sample_env
              (sample_request (gift_payment "decline"))
              (store_with two_small_pizzas) two_small_pizzas
              (Totals.mk 20.00 1.65 21.65) "Mock gift card declined")
    as (Hresponse & _ & Hstore & _).
  - reflexivity.
  - discriminate.
  - vm_compute. reflexivity.
  - vm_compute. reflexivity.
  - split; [exact Hresponse | exact Hstore].
Defined.

Lemma place_order_approved_witness :
  ∃ order,
    fst (place_order sample_env (sample_request cash_payment)
           (store_with three_lines)) = Ok (OrderPlaced order)
    ∧ OrderSummary.order_id order = "order_9b1de2f4a6c8"%string
    ∧ OrderSummary.items order
      = [ PricedItem.mk
            (Pizza (CartPizzaItem.mk "Custom Pizza"
                      (PizzaCustomization.mk small thin tomato cheese_normal
                         bake_normal pie flavor_none drizzle_none [] "") 2))
            10.00 20.00;
          PricedItem.mk (Drink (CartDrinkItem.mk water 1)) 1.50 1.50;
          PricedItem.mk (Drink (CartDrinkItem.mk coke 2)) 2.25 4.50 ]
    ∧ OrderSummary.totals order = Totals.mk 26.00 2.15 28.15
    ∧ get_order "order_9b1de2f4a6c8"
        (snd (place_order sample_env (sample_request cash_payment)
                (store_with three_lines)))
      = (Ok order,
         snd (place_order sample_env (sample_request cash_payment)
                (store_with three_lines)))
    ∧ Store.CARTS
        (snd (place_order sample_env (sample_request cash_payment)
                (store_with three_lines))) !! "cart_0123456789ab"%string
      = Some (Cart.mk "cart_0123456789ab" []).
Proof.
  destruct (place_order_approved sample_env (sample_request cash_payment)
              (store_with three_lines) three_lines
              (Totals.mk 26.00 2.15 28.15) "cash" 28.15 None)
    as (order & Hresponse & _ & Hid & _ & _ & _ & Hexact & Htotals & _ & _ & _
        & Hget & Hcart & _).
  - reflexivity.
  - discriminate.
  - vm_compute. reflexivity.
  - vm_compute. reflexivity.
  - exists order. split; [exact Hresponse|]. split; [exact Hid|].
    split; [|split; [exact Htotals|split; [|exact Hcart]]].
    + rewrite Hexact; [vm_compute; reflexivity|].
      repeat constructor; cbn; lia.
    + rewrite Hid in Hget. exact Hget.
Defined.

(** ** Toppings of stored pizzas *)

Lemma validate_toppings_ok (l dedup : list string) :
  validate_toppings l = Ok dedup →
  all_valid l ∧ dedup = keep_first_occurrences l.
Proof.
  intros Hok. destruct (decide (all_valid l)) as [Hv|Hn].
  - rewrite validate_toppings_valid in Hok by done.
    split; [done|]. by apply Ok_inj in Hok.
  - destruct (first_invalid l Hn) as (l1 & t & l2 & -> & Hv & Ht).
    rewrite validate_toppings_invalid in Hok by done. discriminate Hok.
Qed.

Lemma validate_toppings_clean (l dedup : list string) :
  validate_toppings l = Ok dedup → NoDup dedup ∧ all_valid dedup.
Proof.
  intros Hok. destruct (validate_toppings_ok _ _ Hok) as [Hv ->]. split.
  - apply NoDup_keep_first_occurrences.
  - unfold all_valid in *. rewrite Forall_forall in *.
    intros t Ht. apply Hv. by apply elem_of_keep_first_occurrences.
Qed.

Lemma clean_toppings_set_qty (qty : Z) (it : CartItem) :
  clean_toppings it → clean_toppings (set_qty qty it).
Proof. by destruct it. Qed.

Lemma carts_clean_insert (st : Store.t) (cart_id id : string)
    (items : list CartItem) (orders : gmap string OrderSummary.t) :
  carts_clean st → Forall clean_toppings items →
  carts_clean (Store.mk (<[cart_id := Cart.mk id items]> (Store.CARTS st)) orders).
Proof.
  intros Hst Hitems other cart. cbn [Store.CARTS]. rewrite lookup_insert.
  case_decide.
  - by intros [= <-].
  - apply Hst.
Qed.

(** The items a handler stores, from those of a clean store. *)
Ltac clean_items Hst :=
  match goal with
  | |- Forall _ [] => constructor
  | |- Forall _ (_ ++ [Drink _]) =>
      apply Forall_app; split; [by eapply Hst | by repeat constructor]
  | |- Forall _ (_ ++ [Pizza _]) =>
      apply Forall_app; split; [by eapply Hst|];
      constructor; [|constructor]; cbn; by eapply validate_toppings_clean
  | |- Forall _ (<[_ := _]> _) =>
      apply Forall_insert; [by eapply Hst|];
      apply clean_toppings_set_qty;
      eapply Forall_lookup_1; [by eapply Hst | done]
  | |- Forall _ (delete _ _) => apply Forall_delete; by eapply Hst
  end.

Lemma serve_carts_clean (r : Request) (st : Store.t) :
  carts_clean st → carts_clean (serve r st).
Proof.
  intros Hst. destruct r; cbn [serve];
    unfold create_cart, get_cart, add_pizza, add_drink, update_qty,
      remove_item, clear_cart, place_order, get_order, Store.set_items;
    repeat case_match; cbn [snd]; try done;
    (apply carts_clean_insert; [done|]); clean_items Hst.
Qed.

(** C10: in every store the process can reach, every pizza item of every
    cart has toppings without duplicates that all belong to the 12-name
    catalog.  [add_pizza] appends the item with the list the validator
    returned in place of the list it was sent (and changes nothing when the
    validator raises), and every request, whatever it is ([update_qty],
    [remove_item], [clear_cart], [place_order], ...), leads to a store with
    the same property. *)
Theorem reachable_carts_clean (st : Store.t) :
  reachable st →
  length TOPPINGS = 12%nat
  ∧ (∀ cart_id cart, Store.CARTS st !! cart_id = Some cart →
       ∀ p, Pizza p ∈ Cart.items cart →
         NoDup (PizzaCustomization.toppings (CartPizzaItem.customization p))
         ∧ ∀ t, t ∈ PizzaCustomization.toppings (CartPizzaItem.customization p)
                → t ∈ TOPPINGS)
  ∧ (∀ cart_id item cart, Store.CARTS st !! cart_id = Some cart →
       match validate_toppings
               (PizzaCustomization.toppings (CartPizzaItem.customization item))
       with
       | Ok dedup =>
           Store.CARTS (snd (add_pizza cart_id item st)) !! cart_id
           = Some (Cart.mk (Cart.cart_id cart)
                     (Cart.items cart
                      ++ [Pizza (CartPizzaItem.mk (CartPizzaItem.name item)
                                   (PizzaCustomization.set_toppings dedup
                                      (CartPizzaItem.customization item))
                                   (CartPizzaItem.qty item))]))
       | Raise e => add_pizza cart_id item st = (Raise e, st)
       end)
  ∧ (∀ r, carts_clean (serve r st)).
Proof.
  intros Hreach.
  assert (carts_clean st) as Hclean.
  { induction Hreach as [|st r _ IH].
    - intros cart_id cart Hl. cbn in Hl. by rewrite lookup_empty in Hl.
    - by apply serve_carts_clean. }
  split; [reflexivity|]. split; [|split].
  - intros cart_id cart Hcart p Hp.
    pose proof (Hclean cart_id cart Hcart) as Hall.
    rewrite Forall_forall in Hall. destruct (Hall _ Hp) as [Hnd Hv].
    split; [done|]. unfold all_valid in Hv. by rewrite Forall_forall in Hv.
  - intros cart_id item cart Hcart. unfold add_pizza. rewrite Hcart.
    destruct (validate_toppings _) as [dedup|e]; [|done].
    cbn [snd]. rewrite lookup_set_items. by rewrite decide_True.
  - intros r. by apply serve_carts_clean.
Qed.

Lemma reachable_carts_clean_witness :
  Store.CARTS store_after_add_pizza !! "cart_3f2a9c0b7d41"%string
  = Some (Cart.mk "cart_3f2a9c0b7d41"
            [Pizza (CartPizzaItem.mk "Custom Pizza"
                      (sample_pizza ["ham"; "bacon"]%string) 1)])
  ∧ ∀ cart_id cart,
      Store.CARTS store_after_add_pizza !! cart_id = Some cart →
      ∀ p, Pizza p ∈ Cart.items cart →
        NoDup (PizzaCustomization.toppings (CartPizzaItem.customization p))
        ∧ ∀ t, t ∈ PizzaCustomization.toppings (CartPizzaItem.customization p)
               → t ∈ TOPPINGS.
Proof.
  split; [vm_compute; reflexivity|].
  apply (reachable_carts_clean store_after_add_pizza).
  unfold store_after_add_pizza.
  apply reachable_serve, reachable_serve, reachable_start.
Defined.

(** * Further properties *)

(** ** Required payment fields *)

Lemma missing_str_present (o : option string) :
  missing_str o = false ↔ present_str o.
Proof.
  unfold present_str. destruct o as [s|]; simpl.
  - destruct (String.eqb_spec s "") as [->|Hne]; split.
    + discriminate.
    + intros (s' & [= <-] & Hs). by destruct Hs.
    + eauto.
    + done.
  - split; [discriminate|]. by intros (s & Hs & _).
Qed.

Lemma missing_int_present (o : option Z) :
  missing_int o = false ↔ present_int o.
Proof.
  unfold present_int. destruct o as [n|]; simpl; split; eauto; try done.
  by intros [n Hn].
Qed.

(** The absent card fields, name by name. *)
Lemma missing_card_fields_app (p : PaymentInfo.t) :
  missing_card_fields p
  = (if missing_str (PaymentInfo.card_number p)
     then ["card_number"%string] else [])
    ++ (if missing_int (PaymentInfo.exp_month p)
        then ["exp_month"%string] else [])
    ++ (if missing_int (PaymentInfo.exp_year p)
        then ["exp_year"%string] else [])
    ++ (if missing_str (PaymentInfo.cvv p) then ["cvv"%string] else [])
    ++ (if missing_str (PaymentInfo.zip_code p)
        then ["zip_code"%string] else []).
Proof.
  unfold missing_card_fields.
  destruct (missing_str (PaymentInfo.card_number p)),
    (missing_int (PaymentInfo.exp_month p)),
    (missing_int (PaymentInfo.exp_year p)),
    (missing_str (PaymentInfo.cvv p)),
    (missing_str (PaymentInfo.zip_code p)); vm_compute; reflexivity.
Qed.

Lemma missing_card_fields_elem (p : PaymentInfo.t) (k : string) :
  k ∈ missing_card_fields p ↔
    (k = "card_number"%string ∧ missing_str (PaymentInfo.card_number p) = true)
    ∨ (k = "exp_month"%string ∧ missing_int (PaymentInfo.exp_month p) = true)
    ∨ (k = "exp_year"%string ∧ missing_int (PaymentInfo.exp_year p) = true)
    ∨ (k = "cvv"%string ∧ missing_str (PaymentInfo.cvv p) = true)
    ∨ (k = "zip_code"%string ∧ missing_str (PaymentInfo.zip_code p) = true).
Proof.
  rewrite missing_card_fields_app.
  destruct (missing_str (PaymentInfo.card_number p)),
    (missing_int (PaymentInfo.exp_month p)),
    (missing_int (PaymentInfo.exp_year p)),
    (missing_str (PaymentInfo.cvv p)),
    (missing_str (PaymentInfo.zip_code p));
    cbn [app]; rewrite ?elem_of_cons, ?elem_of_nil;
    intuition (try done; auto 10).
Qed.

Lemma missing_card_fields_nil (p : PaymentInfo.t) :
  missing_card_fields p = [] ↔
    missing_str (PaymentInfo.card_number p) = false
    ∧ missing_int (PaymentInfo.exp_month p) = false
    ∧ missing_int (PaymentInfo.exp_year p) = false
    ∧ missing_str (PaymentInfo.cvv p) = false
    ∧ missing_str (PaymentInfo.zip_code p) = false.
Proof.
  rewrite missing_card_fields_app.
  destruct (missing_str (PaymentInfo.card_number p)),
    (missing_int (PaymentInfo.exp_month p)),
    (missing_int (PaymentInfo.exp_year p)),
    (missing_str (PaymentInfo.cvv p)),
    (missing_str (PaymentInfo.zip_code p));
    cbn [app]; intuition done.
Qed.

Lemma missing_card_fields_sublist (p : PaymentInfo.t) :
  missing_card_fields p
  `sublist_of` ["card_number"; "exp_month"; "exp_year"; "cvv";
                "zip_code"]%string.
Proof.
  rewrite missing_card_fields_app.
  destruct (missing_str (PaymentInfo.card_number p)),
    (missing_int (PaymentInfo.exp_month p)),
    (missing_int (PaymentInfo.exp_year p)),
    (missing_str (PaymentInfo.cvv p)),
    (missing_str (PaymentInfo.zip_code p));
    cbn [app];
    repeat first [apply sublist_nil | apply sublist_skip | apply sublist_cons].
Qed.

Lemma validate_required_passes (p : PaymentInfo.t) :
  validate_required p = Ok tt ↔ required_present p.
Proof.
  unfold required_present, validate_required.
  destruct (PaymentInfo.method p).
  - rewrite <- !missing_str_present, <- !missing_int_present,
      <- missing_card_fields_nil.
    destruct (missing_card_fields p); cbn; split; done.
  - done.
  - cbn. rewrite <- missing_str_present.
    destruct (missing_str _); split; done.
Qed.

(** [validate_required] passes exactly when the fields the method needs are
    present: all five card fields for a card, the code for a gift card,
    nothing for cash.  Otherwise a card raises [MissingPaymentFields] with the
    names of the absent fields, in the order of the model, and a gift card
    raises [MissingGiftCardCode]. *)
Theorem validate_required_correct (p : PaymentInfo.t) :
  (validate_required p = Ok tt ↔ required_present p)
  ∧ (PaymentInfo.method p = card → ¬ required_present p →
     validate_required p = Raise (MissingPaymentFields (missing_card_fields p))
     ∧ missing_card_fields p ≠ []
     ∧ missing_card_fields p
       `sublist_of` ["card_number"; "exp_month"; "exp_year"; "cvv";
                     "zip_code"]%string
     ∧ ("card_number"%string ∈ missing_card_fields p
        ↔ ¬ present_str (PaymentInfo.card_number p))
     ∧ ("exp_month"%string ∈ missing_card_fields p
        ↔ ¬ present_int (PaymentInfo.exp_month p))
     ∧ ("exp_year"%string ∈ missing_card_fields p
        ↔ ¬ present_int (PaymentInfo.exp_year p))
     ∧ ("cvv"%string ∈ missing_card_fields p
        ↔ ¬ present_str (PaymentInfo.cvv p))
     ∧ ("zip_code"%string ∈ missing_card_fields p
        ↔ ¬ present_str (PaymentInfo.zip_code p)))
  ∧ (PaymentInfo.method p = giftcard → ¬ required_present p →
     validate_required p = Raise MissingGiftCardCode).
Proof.
  assert (∀ o, missing_str o = true ↔ ¬ present_str o) as Hstr.
  { intros o. rewrite <- missing_str_present. by destruct (missing_str o). }
  assert (∀ o, missing_int o = true ↔ ¬ present_int o) as Hint.
  { intros o. rewrite <- missing_int_present. by destruct (missing_int o). }
  unfold required_present, validate_required.
  destruct (PaymentInfo.method p) eqn:Hm.
  - (* card *)
    split; [|split; [|done]].
    + rewrite <- !missing_str_present, <- !missing_int_present,
        <- missing_card_fields_nil.
      destruct (missing_card_fields p); cbn; split; done.
    + intros _ Hn.
      assert (missing_card_fields p ≠ []) as Hne.
      { intros Hnil. apply Hn. apply missing_card_fields_nil in Hnil.
        by rewrite !missing_str_present, !missing_int_present in Hnil. }
      destruct (missing_card_fields p) as [|k l] eqn:Hl; [done|].
      cbn. split; [done|]. split; [done|]. rewrite <- Hl.
      split; [apply missing_card_fields_sublist|].
      rewrite !missing_card_fields_elem, <- !Hstr, <- !Hint.
      repeat split; intros H; intuition (try discriminate; auto).
  - (* cash *) cbn. split; [done|]. split; done.
  - (* giftcard *)
    cbn. rewrite <- missing_str_present.
    split; [|split; [done|]].
    + destruct (missing_str _); split; done.
    + intros _ Hn. destruct (missing_str _); [done|]. by destruct Hn.
Qed.

Lemma validate_required_correct_witness :
  validate_required (card_payment "" 11 2026)
  = Raise (MissingPaymentFields ["card_number"%string])
  ∧ validate_required (gift_payment "")
    = Raise MissingGiftCardCode.
Proof.
  split.
  - destruct (proj1 (proj2 (validate_required_correct
                              (card_payment "" 11 2026))) eq_refl)
      as (Hraise & _).
    + intros (Hnum & _). destruct Hnum as (s & [= <-] & Hs). by destruct Hs.
    + exact Hraise.
  - apply (proj2 (proj2 (validate_required_correct (gift_payment "")))
             eq_refl).
    intros (s & [= <-] & Hs). by destruct Hs.
Defined.

(** ** What an approval looks like *)

Lemma all_chars_filter (p : ascii -> bool) (s : string) :
  all_chars p (Py.filter_chars p s) = true.
Proof.
  induction s as [|c s IH]; [done|]. simpl.
  destruct (p c) eqn:Hc; [|done]. simpl. by rewrite Hc.
Qed.

Lemma all_chars_substring (p : ascii -> bool) (s : string) (n m : nat) :
  all_chars p s = true → all_chars p (substring n m s) = true.
Proof.
  revert n m. induction s as [|c s IH]; intros [|n] [|m] Hs; simpl in *;
    try done; apply andb_true_iff in Hs as [Hc Hs].
  - rewrite Hc. by apply IH.
  - by apply IH.
  - by apply IH.
Qed.

Lemma approved_inj (a a' : string) (x x' : float) (l l' : option string) :
  Ok (approved a x l) = Ok (approved a' x' l') → a = a' ∧ x = x' ∧ l = l'.
Proof.
  intros H. apply Ok_inj in H. split; [|split].
  - exact (f_equal (fun r => match r with approved i _ _ => i | _ => a end) H).
  - exact (f_equal (fun r => match r with approved _ y _ => y | _ => x end) H).
  - exact (f_equal (fun r => match r with approved _ _ k => k | _ => l end) H).
Qed.

(** An approval echoes the amount it was asked for and is only given to a
    payment with its required fields.  For cash the id is ["cash"], for a
    gift card it is ["gift_"] and 10 characters of the uuid, both without
    [card_last4]; for a card it is ["auth_"] and 12 characters of the uuid,
    and [card_last4] is ["????"] or exactly four digits of the card number,
    never ["0000"]. *)
Theorem mock_authorize_approved (now : datetime.t) (uuid4_hex : string)
    (payment : PaymentInfo.t) (asked : float)
    (auth_id : string) (amount : float) (card_last4 : option string) :
  mock_authorize now uuid4_hex payment asked
  = Ok (approved auth_id amount card_last4) →
  amount = asked
  ∧ required_present payment
  ∧ match PaymentInfo.method payment with
    | cash => auth_id = "cash"%string ∧ card_last4 = None
    | giftcard =>
        auth_id = ("gift_" +:+ Py.take 10 uuid4_hex)%string ∧ card_last4 = None
    | card =>
        auth_id = ("auth_" +:+ Py.take 12 uuid4_hex)%string
        ∧ ∃ last4, card_last4 = Some last4
            ∧ last4 ≠ "0000"%string
            ∧ (last4 = "????"%string
               ∨ (Py.len last4 = 4%nat
                  ∧ all_chars Py.isdigit last4 = true
                  ∧ ∃ pre, normalized_card_digits payment = pre +:+ last4))
    end.
Proof.
  unfold mock_authorize.
  destruct (validate_required payment) as [[]|e] eqn:Hreq; [|discriminate].
  cbn [bind]. apply validate_required_passes in Hreq.
  destruct (PaymentInfo.method payment) eqn:Hm.
  - (* card *)
    destruct (PaymentInfo.exp_year payment), (PaymentInfo.exp_month payment);
      try discriminate.
    destruct (negb _); [discriminate|].
    destruct (Py.endswith _ _) eqn:Hend; [discriminate|].
    intros Heq. apply approved_inj in Heq as (<- & <- & <-).
    split; [done|]. split; [done|]. split; [done|].
    eexists. split; [reflexivity|].
    unfold Py.endswith in Hend. change (Py.len "0000") with 4%nat in Hend.
    destruct (Nat.leb_spec 4 (Py.len (normalized_card_digits payment)))
      as [Hlen|Hlen]; cbn [andb] in Hend.
    + split.
      * intros H0. rewrite H0 in Hend. discriminate Hend.
      * right. destruct (take_last_suffix 4 _ Hlen) as (pre & Hpre & Hl4).
        split; [done|]. split; [|by exists pre].
        apply all_chars_substring. apply all_chars_filter.
    + split; [discriminate|by left].
  - (* cash *)
    intros Heq. by apply approved_inj in Heq as (<- & <- & <-).
  - (* giftcard *)
    destruct (String.eqb _ _); [discriminate|].
    intros Heq. by apply approved_inj in Heq as (<- & <- & <-).
Qed.

Lemma mock_authorize_approved_witness :
  ∃ last4,
    mock_authorize november_2026 sample_uuid4_hex
      (card_payment "4111-1111-1111-1234" 11 2026) 21.65
    = Ok (approved "auth_3f2a9c0b7d41" 21.65 (Some last4))
    ∧ last4 ≠ "0000"%string
    ∧ (last4 = "????"%string
       ∨ (Py.len last4 = 4%nat
          ∧ all_chars Py.isdigit last4 = true
          ∧ ∃ pre,
              normalized_card_digits
                (card_payment "4111-1111-1111-1234" 11 2026)
              = pre +:+ last4)).
Proof.
  destruct (mock_authorize_approved november_2026 sample_uuid4_hex
              (card_payment "4111-1111-1111-1234" 11 2026) 21.65
              "auth_3f2a9c0b7d41" 21.65 (Some "1234"%string) eq_refl)
    as (_ & _ & _ & last4 & [= <-] & Hshape).
  exists "1234"%string. split; [reflexivity | exact Hshape].
Defined.

(** ** Exact amounts *)

(** A pizza with catalog toppings costs between 9.50 and 37.20, a multiple
    of 0.05, and at most 12 toppings are charged: [price_pizza] returns the
    float nearest to that amount. *)
Theorem price_pizza_range (custom : PizzaCustomization.t) :
  all_valid (PizzaCustomization.toppings custom) →
  ∃ cents,
    price_pizza custom = Ok (float_of_cents cents)
    ∧ 950 <= cents <= 3720
    ∧ (5 | cents)
    ∧ (distinct_count (PizzaCustomization.toppings custom) <= 12)%nat
    ∧ cents
      = pizza_cents custom 0
        + 125 * Z.of_nat
                  (distinct_count (PizzaCustomization.toppings custom)).
Proof.
  intros Hv. pose proof (distinct_count_valid _ Hv) as Hn.
  destruct (pizza_cents_range custom _ Hn) as [Hrange Hdiv].
  eexists. split; [by apply price_pizza_exact|].
  split; [done|]. split; [done|]. split; [done|].
  unfold pizza_cents. lia.
Qed.

Lemma price_pizza_range_witness :
  ∃ cents,
    price_pizza (sample_pizza ["bacon"; "ham"; "bacon"]%string)
    = Ok (float_of_cents cents)
    ∧ 950 <= cents <= 3720.
Proof.
  destruct (price_pizza_range (sample_pizza ["bacon"; "ham"; "bacon"]%string))
    as (cents & Hprice & Hrange & _).
  - by_decide.
  - exists cents. split; [exact Hprice | exact Hrange].
Defined.

(** For a cart whose pizzas carry catalog toppings and whose quantities are
    between 1 and 20, the priced cart of [enrich_items_with_prices] and the
    order lines of [enrich_order_items] have one line per item, in order,
    whose unit price and line total are the floats nearest to the exact
    decimal unit price and to the exact unit price times the quantity. *)
Theorem enrich_exact (cart : Cart.t) :
  Forall item_valid (Cart.items cart) →
  Forall (fun it => qty_ok (item_qty it)) (Cart.items cart) →
  enrich_items_with_prices cart
  = Ok (PricedCart.mk (Cart.cart_id cart) (exact_line <$> Cart.items cart))
  ∧ enrich_order_items (Cart.items cart)
    = Ok (exact_line <$> Cart.items cart).
Proof.
  intros Hv Hq. unfold enrich_items_with_prices, enrich_order_items.
  by rewrite enrich_loop_exact.
Qed.

Lemma enrich_exact_witness :
  enrich_order_items (Cart.items three_lines)
  = Ok [ PricedItem.mk
           (Pizza (CartPizzaItem.mk "Custom Pizza"
                     (PizzaCustomization.mk small thin tomato cheese_normal
                        bake_normal pie flavor_none drizzle_none [] "") 2))
           10.00 20.00;
         PricedItem.mk (Drink (CartDrinkItem.mk water 1)) 1.50 1.50;
         PricedItem.mk (Drink (CartDrinkItem.mk coke 2)) 2.25 4.50 ].
Proof.
  etrans.
  - apply (enrich_exact three_lines).
    + repeat constructor.
    + repeat constructor; cbn; lia.
  - vm_compute. reflexivity.
Defined.

(** ** Cart handlers *)

Lemma compute_totals_empty (id : string) :
  compute_totals (Cart.mk id []) = Ok zero_totals.
Proof. reflexivity. Qed.

Lemma cart_response_empty (id : string) :
  cart_response (Cart.mk id [])
  = Ok (CartResponse.mk (Cart.mk id []) zero_totals).
Proof. reflexivity. Qed.

Lemma set_qty_same_product (qty : Z) (it : CartItem) :
  same_product it (set_qty qty it) ∧ item_qty (set_qty qty it) = qty.
Proof. by destruct it. Qed.

(** [update_qty] raises [CartNotFound] for an unknown cart and
    [InvalidIndex] for an index that is not below the number of items, and
    then changes nothing.  Otherwise the item at the index keeps its product
    and gets the new quantity; the other items, the other carts and the
    orders stay as they are, and the number of items is unchanged. *)
Theorem update_qty_correct (cart_id : string) (req : UpdateQtyRequest.t)
    (st : Store.t) :
  let index := UpdateQtyRequest.index req in
  (Store.CARTS st !! cart_id = None →
   update_qty cart_id req st = (Raise CartNotFound, st))
  ∧ (∀ cart, Store.CARTS st !! cart_id = Some cart →
       ((length (Cart.items cart) <= index)%nat →
        update_qty cart_id req st = (Raise InvalidIndex, st))
       ∧ (∀ item, Cart.items cart !! index = Some item →
          let st' := snd (update_qty cart_id req st) in
          ∃ items' item',
            Store.CARTS st' !! cart_id
            = Some (Cart.mk (Cart.cart_id cart) items')
            ∧ items' !! index = Some item'
            ∧ same_product item item'
            ∧ item_qty item' = UpdateQtyRequest.qty req
            ∧ length items' = length (Cart.items cart)
            ∧ (∀ j, j ≠ index → items' !! j = Cart.items cart !! j)
            ∧ (∀ other, other ≠ cart_id →
                 Store.CARTS st' !! other = Store.CARTS st !! other)
            ∧ Store.ORDERS st' = Store.ORDERS st
            ∧ fst (update_qty cart_id req st)
              = cart_response (Cart.mk (Cart.cart_id cart) items'))).
Proof.
  intros index. unfold update_qty. fold index. split.
  - by intros ->.
  - intros cart ->. split.
    + intros Hge. apply Nat.leb_le in Hge. by rewrite Hge.
    + intros item Hitem.
      assert (index < length (Cart.items cart))%nat as Hlt
        by by eapply lookup_lt_Some.
      apply Nat.leb_gt in Hlt as Hlt'. rewrite Hlt', Hitem. cbn [fst snd].
      destruct (set_qty_same_product (UpdateQtyRequest.qty req) item)
        as [Hsame Hqty].
      eexists _, _.
      split; [rewrite lookup_set_items; by rewrite decide_True|].
      split; [by apply list_lookup_insert_eq|].
      split; [done|]. split; [done|].
      split; [by rewrite length_insert|].
      split; [intros j Hj; by apply list_lookup_insert_ne|].
      split; [|done].
      intros other Hne. rewrite lookup_set_items. by rewrite decide_False.
Qed.

Lemma update_qty_correct_witness :
  ∃ items' item',
    Store.CARTS
      (snd (update_qty "cart_0123456789ab" (UpdateQtyRequest.mk 2 5)
              (store_with three_lines))) !! "cart_0123456789ab"%string
    = Some (Cart.mk "cart_0123456789ab" items')
    ∧ items' !! 2%nat = Some item'
    ∧ same_product (Drink (CartDrinkItem.mk coke 2)) item'
    ∧ item_qty item' = 5.
Proof.
  destruct (proj2 (proj2 (update_qty_correct "cart_0123456789ab"
                            (UpdateQtyRequest.mk 2 5) (store_with three_lines))
                     three_lines eq_refl)
              (Drink (CartDrinkItem.mk coke 2)) eq_refl)
    as (items' & item' & Hcart & Hitem & Hsame & Hqty & _).
  exists items', item'. repeat split; assumption.
Defined.

(** [add_pizza] raises [CartNotFound] for an unknown cart and the exception
    of the validator for a topping outside the catalog, and then changes
    nothing.  Otherwise it appends one item: the pizza of the request with the
    validated toppings in place of the toppings sent, every other field as
    sent.  The earlier items, the other carts and the orders stay as they
    are. *)
Theorem add_pizza_correct (cart_id : string) (item : CartPizzaItem.t)
    (st : Store.t) :
  let sent := PizzaCustomization.toppings (CartPizzaItem.customization item) in
  (Store.CARTS st !! cart_id = None →
   add_pizza cart_id item st = (Raise CartNotFound, st))
  ∧ (∀ cart, Store.CARTS st !! cart_id = Some cart →
       (∀ e, validate_toppings sent = Raise e →
          add_pizza cart_id item st = (Raise e, st))
       ∧ (∀ dedup, validate_toppings sent = Ok dedup →
          let st' := snd (add_pizza cart_id item st) in
          let items' := Cart.items cart ++ [stored_pizza item dedup] in
          Store.CARTS st' !! cart_id = Some (Cart.mk (Cart.cart_id cart) items')
          ∧ dedup = keep_first_occurrences sent
          ∧ length items' = S (length (Cart.items cart))
          ∧ (∀ j, (j < length (Cart.items cart))%nat →
               items' !! j = Cart.items cart !! j)
          ∧ (∀ other, other ≠ cart_id →
               Store.CARTS st' !! other = Store.CARTS st !! other)
          ∧ Store.ORDERS st' = Store.ORDERS st
          ∧ fst (add_pizza cart_id item st)
            = cart_response (Cart.mk (Cart.cart_id cart) items'))).
Proof.
  intros sent. unfold add_pizza. fold sent. split.
  - by intros ->.
  - intros cart ->. split.
    + by intros e ->.
    + intros dedup Hok. rewrite Hok. cbn [fst snd].
      split; [rewrite lookup_set_items; by rewrite decide_True|].
      split; [by apply validate_toppings_ok in Hok as [_ ->]|].
      split; [rewrite length_app; simpl; lia|].
      split; [intros j Hj; by rewrite lookup_app_l|].
      split; [|done].
      intros other Hne. rewrite lookup_set_items. by rewrite decide_False.
Qed.

Lemma add_pizza_correct_witness :
  add_pizza "cart_0123456789ab"
    (CartPizzaItem.mk "Custom Pizza" (sample_pizza ["ham"; "tofu"]%string) 1)
    (store_with two_small_pizzas)
  = (Raise (InvalidTopping "tofu"), store_with two_small_pizzas)
  ∧ Store.CARTS
      (snd (add_pizza "cart_0123456789ab"
              (CartPizzaItem.mk "Custom Pizza"
                 (sample_pizza ["ham"; "bacon"; "ham"]%string) 3)
              (store_with two_small_pizzas))) !! "cart_0123456789ab"%string
    = Some (Cart.mk "cart_0123456789ab"
              (Cart.items two_small_pizzas
               ++ [Pizza (CartPizzaItem.mk "Custom Pizza"
                            (sample_pizza ["ham"; "bacon"]%string) 3)])).
Proof.
  split.
  - apply (proj1 (proj2 (add_pizza_correct "cart_0123456789ab"
                           (CartPizzaItem.mk "Custom Pizza"
                              (sample_pizza ["ham"; "tofu"]%string) 1)
                           (store_with two_small_pizzas))
                    two_small_pizzas eq_refl)).
    vm_compute. reflexivity.
  - apply (proj2 (proj2 (add_pizza_correct "cart_0123456789ab"
                           (CartPizzaItem.mk "Custom Pizza"
                              (sample_pizza ["ham"; "bacon"; "ham"]%string) 3)
                           (store_with two_small_pizzas))
                    two_small_pizzas eq_refl)
             ["ham"; "bacon"]%string).
    vm_compute. reflexivity.
Defined.

(** [clear_cart] raises [CartNotFound] for an unknown cart and changes
    nothing.  Otherwise the cart stays in the store under its identifier,
    without items; the other carts and the orders stay as they are, and the
    response shows the empty cart with all three totals at zero.  Clearing
    twice is clearing once. *)
Theorem clear_cart_correct (cart_id : string) (st : Store.t) :
  (Store.CARTS st !! cart_id = None →
   clear_cart cart_id st = (Raise CartNotFound, st))
  ∧ (∀ cart, Store.CARTS st !! cart_id = Some cart →
       let emptied := Cart.mk (Cart.cart_id cart) [] in
       let st' := snd (clear_cart cart_id st) in
       fst (clear_cart cart_id st) = Ok (CartResponse.mk emptied zero_totals)
       ∧ Store.CARTS st' !! cart_id = Some emptied
       ∧ (∀ other, other ≠ cart_id →
            Store.CARTS st' !! other = Store.CARTS st !! other)
       ∧ Store.ORDERS st' = Store.ORDERS st
       ∧ clear_cart cart_id st'
         = (Ok (CartResponse.mk emptied zero_totals), st')).
Proof.
  unfold clear_cart. split.
  - by intros ->.
  - intros cart Hcart. rewrite Hcart. cbn [fst snd].
    split; [done|].
    split; [rewrite lookup_set_items; by rewrite decide_True|].
    split; [intros other Hne; rewrite lookup_set_items;
            by rewrite decide_False|].
    split; [done|].
    rewrite lookup_set_items, decide_True by done.
    cbn [Cart.cart_id]. f_equal.
    unfold Store.set_items. cbn [Store.CARTS Store.ORDERS Cart.cart_id].
    by rewrite insert_insert_eq.
Qed.

Lemma clear_cart_correct_witness :
  fst (clear_cart "cart_0123456789ab" (store_with three_lines))
  = Ok (CartResponse.mk (Cart.mk "cart_0123456789ab" []) zero_totals)
  ∧ clear_cart "cart_unknown" (store_with three_lines)
    = (Raise CartNotFound, store_with three_lines).
Proof.
  split.
  - apply (proj2 (clear_cart_correct "cart_0123456789ab"
                    (store_with three_lines)) three_lines eq_refl).
  - apply (proj1 (clear_cart_correct "cart_unknown" (store_with three_lines))).
    reflexivity.
Defined.

Lemma store_eta (st : Store.t) :
  Store.mk (Store.CARTS st) (Store.ORDERS st) = st.
Proof. by destruct st. Qed.

Lemma cart_eta (cart : Cart.t) :
  Cart.mk (Cart.cart_id cart) (Cart.items cart) = cart.
Proof. by destruct cart. Qed.

(** Storing the items a cart already has changes nothing. *)
Lemma set_items_same (cart_id : string) (cart : Cart.t) (st : Store.t) :
  Store.CARTS st !! cart_id = Some cart →
  Store.set_items cart_id cart (Cart.items cart) st = st.
Proof.
  intros Hcart. unfold Store.set_items.
  rewrite cart_eta, insert_id by done. apply store_eta.
Qed.

(** Storing items twice under one identifier keeps the last ones. *)
Lemma set_items_twice (cart_id : string) (cart cart' : Cart.t)
    (items items' : list CartItem) (st : Store.t) :
  Cart.cart_id cart' = Cart.cart_id cart →
  Store.set_items cart_id cart' items' (Store.set_items cart_id cart items st)
  = Store.set_items cart_id cart items' st.
Proof.
  intros Hid. unfold Store.set_items. cbn [Store.CARTS Store.ORDERS].
  by rewrite insert_insert_eq, Hid.
Qed.

Lemma prefix_app (pre s : string) : String.prefix pre (pre +:+ s) = true.
Proof.
  induction pre as [|c pre IH]; [by destruct s|].
  change (String c pre +:+ s) with (String c (pre +:+ s)).
  cbn [String.prefix]. by destruct (ascii_dec c c).
Qed.

(** [create_cart] answers with an empty cart whose identifier is ["cart_"]
    followed by the first 12 characters of the uuid, and stores it under that
    identifier, in place of whatever was there; the other carts and the
    orders stay as they are.  [get_cart] then shows that cart without lines
    and with all three totals at zero. *)
Theorem create_cart_correct (uuid4_hex : string) (st : Store.t) :
  let cart_id := ("cart_" +:+ Py.take 12 uuid4_hex)%string in
  let st' := snd (create_cart uuid4_hex st) in
  fst (create_cart uuid4_hex st) = Ok (Cart.mk cart_id [])
  ∧ String.prefix "cart_" cart_id = true
  ∧ Store.CARTS st' !! cart_id = Some (Cart.mk cart_id [])
  ∧ (∀ other, other ≠ cart_id →
       Store.CARTS st' !! other = Store.CARTS st !! other)
  ∧ Store.ORDERS st' = Store.ORDERS st
  ∧ get_cart cart_id st' = (Ok (PricedCart.mk cart_id [], zero_totals), st')
  ∧ (Py.len uuid4_hex = 32%nat → Py.len cart_id = 17%nat).
Proof.
  intros cart_id st'. subst st'. unfold create_cart. fold cart_id.
  cbn [fst snd Store.CARTS Store.ORDERS].
  split; [done|]. split; [apply prefix_app|].
  split; [by rewrite lookup_insert_eq|].
  split; [intros other Hne; by rewrite lookup_insert_ne|].
  split; [done|]. split.
  - unfold get_cart. cbn [Store.CARTS]. by rewrite lookup_insert_eq.
  - intros Hlen. unfold cart_id, Py.len, Py.take in *.
    rewrite length_app_string, length_substring by lia. reflexivity.
Qed.

Lemma create_cart_correct_witness :
  Py.len ("cart_" +:+ Py.take 12 sample_uuid4_hex) = 17%nat.
Proof.
  apply (create_cart_correct sample_uuid4_hex Store.empty). reflexivity.
Defined.

(** No two lines are merged: sending the same pizza twice appends two equal
    lines. *)
Theorem add_pizza_twice (cart_id : string) (item : CartPizzaItem.t)
    (st : Store.t) (cart : Cart.t) (dedup : list string) :
  Store.CARTS st !! cart_id = Some cart →
  validate_toppings
    (PizzaCustomization.toppings (CartPizzaItem.customization item))
  = Ok dedup →
  Store.CARTS (snd (add_pizza cart_id item (snd (add_pizza cart_id item st))))
    !! cart_id
  = Some (Cart.mk (Cart.cart_id cart)
            (Cart.items cart
             ++ [stored_pizza item dedup; stored_pizza item dedup])).
Proof.
  intros Hcart Hok. unfold add_pizza at 2. rewrite Hcart, Hok. cbn [snd].
  unfold add_pizza. rewrite lookup_set_items, decide_True by done.
  rewrite Hok. cbn [snd Cart.items Cart.cart_id].
  rewrite lookup_set_items, decide_True by done.
  by rewrite <- app_assoc.
Qed.

Lemma add_pizza_twice_witness :
  ∃ cart,
    Store.CARTS
      (snd (add_pizza "cart_0123456789ab"
              (CartPizzaItem.mk "Custom Pizza" (sample_pizza []) 1)
              (snd (add_pizza "cart_0123456789ab"
                      (CartPizzaItem.mk "Custom Pizza" (sample_pizza []) 1)
                      (store_with two_small_pizzas)))))
      !! "cart_0123456789ab"%string
    = Some cart
    ∧ length (Cart.items cart) = 3%nat.
Proof.
  eexists. split.
  - apply (add_pizza_twice "cart_0123456789ab"
             (CartPizzaItem.mk "Custom Pizza" (sample_pizza []) 1)
             (store_with two_small_pizzas) two_small_pizzas []);
      reflexivity.
  - reflexivity.
Defined.

(** Adding an item and then removing the last line restores the store
    exactly, for a drink as for a pizza. *)
Theorem add_then_remove_last (cart_id : string) (st : Store.t)
    (cart : Cart.t) :
  Store.CARTS st !! cart_id = Some cart →
  let last := RemoveItemRequest.mk (length (Cart.items cart)) in
  (∀ item, CartDrinkItem.drink item ≠ drink_none →
     snd (remove_item cart_id last (snd (add_drink cart_id item st))) = st)
  ∧ (∀ item,
       all_valid
         (PizzaCustomization.toppings (CartPizzaItem.customization item)) →
       snd (remove_item cart_id last (snd (add_pizza cart_id item st))) = st).
Proof.
  intros Hcart last.
  assert (∀ x,
            snd (remove_item cart_id last
                   (Store.set_items cart_id cart (Cart.items cart ++ [x]) st))
            = st) as Hback.
  { intros x. unfold remove_item.
    rewrite lookup_set_items, decide_True by done.
    cbn [Cart.items Cart.cart_id RemoveItemRequest.index last].
    assert ((length (Cart.items cart ++ [x]) <=? length (Cart.items cart))%nat
            = false) as ->.
    { apply Nat.leb_gt. rewrite length_app. simpl. lia. }
    cbn [snd]. rewrite delete_middle, app_nil_r.
    rewrite set_items_twice by done. by apply set_items_same. }
  split.
  - intros item Hd. unfold add_drink. rewrite Hcart.
    destruct (CartDrinkItem.drink item); try done; apply Hback.
  - intros item Hv. unfold add_pizza. rewrite Hcart.
    rewrite validate_toppings_valid by done. apply Hback.
Qed.

Lemma add_then_remove_last_witness :
  snd (remove_item "cart_0123456789ab" (RemoveItemRequest.mk 3)
         (snd (add_drink "cart_0123456789ab" (CartDrinkItem.mk sprite 2)
                 (store_with three_lines))))
  = store_with three_lines.
Proof.
  apply (proj1 (add_then_remove_last "cart_0123456789ab"
                  (store_with three_lines) three_lines eq_refl)).
  discriminate.
Defined.

Lemma set_qty_twice (q1 q2 : Z) (it : CartItem) :
  set_qty q2 (set_qty q1 it) = set_qty q2 it.
Proof. by destruct it. Qed.

(** Of two quantity updates of one line the last one wins: the response and
    the store are those of the second update alone. *)
Theorem update_qty_twice (cart_id : string) (index : nat) (q1 q2 : Z)
    (st : Store.t) :
  update_qty cart_id (UpdateQtyRequest.mk index q2)
    (snd (update_qty cart_id (UpdateQtyRequest.mk index q1) st))
  = update_qty cart_id (UpdateQtyRequest.mk index q2) st.
Proof.
  unfold update_qty at 2.
  destruct (Store.CARTS st !! cart_id) as [cart|] eqn:Hcart; [|done].
  cbn [UpdateQtyRequest.index UpdateQtyRequest.qty].
  destruct (Nat.leb_spec (length (Cart.items cart)) index) as [Hge|Hlt];
    [done|].
  destruct (lookup_lt_is_Some_2 _ _ Hlt) as [item Hitem]. rewrite Hitem.
  cbn [snd]. unfold update_qty.
  rewrite lookup_set_items, decide_True, Hcart by done.
  cbn [UpdateQtyRequest.index UpdateQtyRequest.qty Cart.items Cart.cart_id].
  rewrite length_insert.
  apply Nat.leb_gt in Hlt as Hlt'. rewrite Hlt', Hitem.
  rewrite list_lookup_insert_eq by done.
  rewrite list_insert_insert_eq, set_qty_twice.
  by rewrite set_items_twice.
Qed.

(** ** Placing orders *)

Lemma place_order_placed (env : Env.t) (req : PlaceOrderRequest.t)
    (st : Store.t) (cart : Cart.t) (totals : Totals.t)
    (auth_id : string) (amount : float) (card_last4 : option string)
    (lines : list PricedItem.t) :
  Store.CARTS st !! PlaceOrderRequest.cart_id req = Some cart →
  Cart.items cart ≠ [] →
  compute_totals cart = Ok totals →
  mock_authorize (Env.auth_now env) (Env.auth_uuid4_hex env)
    (PlaceOrderRequest.payment req) (Totals.total totals)
  = Ok (approved auth_id amount card_last4) →
  enrich_order_items (Cart.items cart) = Ok lines →
  let order :=
    order_of env req lines totals (approved auth_id amount card_last4) in
  place_order env req st
  = (Ok (OrderPlaced order), store_after_order req cart order st).
Proof.
  intros Hcart Hitems Htotals Hauth Hlines order. subst order.
  unfold place_order. rewrite Hcart.
  destruct (Cart.items cart) as [|it rest] eqn:Hi; [done|].
  by rewrite Htotals, Hauth, Hlines.
Qed.

Lemma place_order_kept (env : Env.t) (req : PlaceOrderRequest.t)
    (st : Store.t) (cart : Cart.t) (totals : Totals.t) (reason : string) :
  Store.CARTS st !! PlaceOrderRequest.cart_id req = Some cart →
  Cart.items cart ≠ [] →
  compute_totals cart = Ok totals →
  mock_authorize (Env.auth_now env) (Env.auth_uuid4_hex env)
    (PlaceOrderRequest.payment req) (Totals.total totals)
  = Ok (declined reason) →
  snd (place_order env req st) = st.
Proof.
  intros Hcart Hitems Htotals Hauth. unfold place_order. rewrite Hcart.
  destruct (Cart.items cart) as [|it rest] eqn:Hi; [done|].
  by rewrite Htotals, Hauth.
Qed.

Lemma mock_authorize_raises (now : datetime.t) (uuid4_hex : string)
    (payment : PaymentInfo.t) (amount : float) (e : HTTPException) :
  validate_required payment = Raise e →
  mock_authorize now uuid4_hex payment amount = Raise e.
Proof. intros Hreq. unfold mock_authorize. by rewrite Hreq. Qed.

(** The checks of [place_order], in their order, each leaving the store as it
    was: an unknown cart raises [CartNotFound]; a cart without items raises
    [EmptyCart], whatever the payment; a cart that cannot be priced raises the
    pricing exception; and a payment with a required field missing raises the
    exception of [validate_required], before any decision on the payment. *)
Theorem place_order_raises (env : Env.t) (req : PlaceOrderRequest.t)
    (st : Store.t) :
  let cart_id := PlaceOrderRequest.cart_id req in
  (Store.CARTS st !! cart_id = None →
   place_order env req st = (Raise CartNotFound, st))
  ∧ (∀ cart, Store.CARTS st !! cart_id = Some cart →
       (Cart.items cart = [] →
        place_order env req st = (Raise EmptyCart, st))
       ∧ (Cart.items cart ≠ [] →
          (∀ e, compute_totals cart = Raise e →
             place_order env req st = (Raise e, st))
          ∧ (∀ totals e, compute_totals cart = Ok totals →
               validate_required (PlaceOrderRequest.payment req) = Raise e →
               place_order env req st = (Raise e, st)))).
Proof.
  intros cart_id. unfold place_order. fold cart_id. split.
  - by intros ->.
  - intros cart ->. split.
    + by intros ->.
    + intros Hne. destruct (Cart.items cart) as [|it rest]; [done|]. split.
      * by intros e ->.
      * intros totals e -> Hreq.
        by rewrite (mock_authorize_raises _ _ _ _ _ Hreq).
Qed.

Lemma place_order_raises_witness :
  place_order sample_env (sample_request (card_payment "" 11 2026))
    (store_with two_small_pizzas)
  = (Raise (MissingPaymentFields ["card_number"%string]),
     store_with two_small_pizzas)
  ∧ place_order sample_env (sample_request (card_payment "" 11 2026))
      (store_with (Cart.mk "cart_0123456789ab" []))
    = (Raise EmptyCart, store_with (Cart.mk "cart_0123456789ab" [])).
Proof.
  split.
  - destruct (proj2 (place_order_raises sample_env
                       (sample_request (card_payment "" 11 2026))
                       (store_with two_small_pizzas))
                two_small_pizzas eq_refl) as [_ Hitems].
    destruct Hitems as [_ Hpayment]; [discriminate|].
    apply (Hpayment (Totals.mk 20.00 1.65 21.65)).
    + vm_compute. reflexivity.
    + vm_compute. reflexivity.
  - apply (proj1 (proj2 (place_order_raises sample_env
                           (sample_request (card_payment "" 11 2026))
                           (store_with (Cart.mk "cart_0123456789ab" [])))
                    (Cart.mk "cart_0123456789ab" []) eq_refl)).
    reflexivity.
Defined.

(** A declined payment can be retried on the same cart: a second
    [place_order] answers exactly as it would have without the declined
    attempt, and when its payment is approved it files the order with the
    totals the declined response showed and one priced line per item. *)
Theorem place_order_retry (env env' : Env.t) (req req' : PlaceOrderRequest.t)
    (st : Store.t) (cart : Cart.t) (totals : Totals.t) (reason : string)
    (auth_id : string) (amount : float) (card_last4 : option string) :
  PlaceOrderRequest.cart_id req' = PlaceOrderRequest.cart_id req →
  Store.CARTS st !! PlaceOrderRequest.cart_id req = Some cart →
  Cart.items cart ≠ [] →
  compute_totals cart = Ok totals →
  mock_authorize (Env.auth_now env) (Env.auth_uuid4_hex env)
    (PlaceOrderRequest.payment req) (Totals.total totals)
  = Ok (declined reason) →
  mock_authorize (Env.auth_now env') (Env.auth_uuid4_hex env')
    (PlaceOrderRequest.payment req') (Totals.total totals)
  = Ok (approved auth_id amount card_last4) →
  let st1 := snd (place_order env req st) in
  place_order env' req' st1 = place_order env' req' st
  ∧ ∃ order,
      fst (place_order env' req' st1) = Ok (OrderPlaced order)
      ∧ OrderSummary.totals order = totals
      ∧ Forall2 priced_as (Cart.items cart) (OrderSummary.items order)
      ∧ Store.CARTS (snd (place_order env' req' st1))
          !! PlaceOrderRequest.cart_id req
        = Some (Cart.mk (Cart.cart_id cart) []).
Proof.
  intros Hid Hcart Hitems Htotals Hdeclined Happroved st1. subst st1.
  rewrite (place_order_kept _ _ _ _ _ _ Hcart Hitems Htotals Hdeclined).
  split; [done|].
  destruct (enrich_order_items_priceable (Cart.items cart))
    as (lines & Hlines & Hpriced).
  { by eapply compute_totals_priceable. }
  rewrite <- Hid in Hcart.
  rewrite (place_order_placed _ _ _ _ _ _ _ _ _ Hcart Hitems Htotals
             Happroved Hlines).
  eexists. split; [reflexivity|]. split; [done|]. split; [done|].
  cbn [snd store_after_order Store.CARTS]. rewrite <- Hid.
  by rewrite lookup_insert_eq.
Qed.

Lemma place_order_retry_witness :
  ∃ order,
    fst (place_order sample_env (sample_request cash_payment)
           (snd (place_order sample_env
                   (sample_request (gift_payment "DECLINE"))
                   (store_with two_small_pizzas))))
    = Ok (OrderPlaced order)
    ∧ OrderSummary.totals order = Totals.mk 20.00 1.65 21.65.
Proof.
  destruct (place_order_retry sample_env sample_env
              (sample_request (gift_payment "DECLINE"))
              (sample_request cash_payment)
              (store_with two_small_pizzas) two_small_pizzas
              (Totals.mk 20.00 1.65 21.65) "Mock gift card declined"
              "cash" 21.65 None)
    as (_ & order & Hresponse & Htotals & _).
  - reflexivity.
  - reflexivity.
  - discriminate.
  - vm_compute. reflexivity.
  - vm_compute. reflexivity.
  - vm_compute. reflexivity.
  - exists order. split; [exact Hresponse | exact Htotals].
Defined.



(** ** What every reachable store satisfies *)

Lemma reachable_clean (st : Store.t) : reachable st → carts_clean st.
Proof.
  induction 1 as [|st r _ IH].
  - intros cart_id cart Hl. cbn in Hl. by rewrite lookup_empty in Hl.
  - by apply serve_carts_clean.
Qed.

Lemma clean_toppings_valid (it : CartItem) : clean_toppings it → item_valid it.
Proof. destruct it; [by intros [_ Hv]|done]. Qed.

Lemma carts_clean_valid (st : Store.t) (cart_id : string) (cart : Cart.t) :
  carts_clean st → Store.CARTS st !! cart_id = Some cart →
  Forall item_valid (Cart.items cart).
Proof.
  intros Hst Hcart. eapply Forall_impl; [by eapply Hst|].
  apply clean_toppings_valid.
Qed.

Lemma all_items_insert (P : CartItem -> Prop) (st : Store.t)
    (cart_id id : string) (items : list CartItem)
    (orders : gmap string OrderSummary.t) :
  all_items P st → Forall P items →
  all_items P
    (Store.mk (<[cart_id := Cart.mk id items]> (Store.CARTS st)) orders).
Proof.
  intros Hst Hitems other cart. cbn [Store.CARTS]. rewrite lookup_insert.
  case_decide.
  - by intros [= <-].
  - apply Hst.
Qed.

(** What a request has to guarantee about the item it stores, for a property
    of all stored items to survive it. *)
Lemma serve_all_items (P : CartItem -> Prop) (r : Request) (st : Store.t) :
  all_items P st →
  match r with
  | AddPizza _ item =>
      ∀ dedup,
        validate_toppings
          (PizzaCustomization.toppings (CartPizzaItem.customization item))
        = Ok dedup →
        P (stored_pizza item dedup)
  | AddDrink _ item =>
      CartDrinkItem.drink item ≠ drink_none → P (Drink item)
  | UpdateQty _ req => ∀ it, P it → P (set_qty (UpdateQtyRequest.qty req) it)
  | _ => True
  end →
  all_items P (serve r st).
Proof.
  intros Hst Hnew. destruct r; cbn [serve];
    unfold create_cart, get_cart, add_pizza, add_drink, update_qty,
      remove_item, clear_cart, place_order, get_order, Store.set_items;
    repeat case_match; cbn [snd]; try done;
    (apply all_items_insert; [done|]);
    match goal with
    | |- Forall _ [] => constructor
    | |- Forall _ (_ ++ [Drink _]) =>
        apply Forall_app; split; [by eapply Hst|];
        constructor; [|constructor]; apply Hnew; congruence
    | |- Forall _ (_ ++ [Pizza _]) =>
        apply Forall_app; split; [by eapply Hst|];
        constructor; [|constructor]; by apply Hnew
    | |- Forall _ (<[_ := _]> _) =>
        apply Forall_insert; [by eapply Hst|];
        apply Hnew; eapply Forall_lookup_1; [by eapply Hst | done]
    | |- Forall _ (delete _ _) => apply Forall_delete; by eapply Hst
    end.
Qed.

Lemma all_items_empty (P : CartItem -> Prop) : all_items P Store.empty.
Proof. intros k c Hl. cbn in Hl. by rewrite lookup_empty in Hl. Qed.

Lemma serve_all_real_valid (rs : list Request) (st : Store.t) :
  all_items (fun it => real_item it ∧ item_valid it) st →
  all_items (fun it => real_item it ∧ item_valid it) (serve_all rs st).
Proof.
  unfold serve_all. revert st.
  induction rs as [|r rs IH]; intros st Hst; [done|].
  cbn [fold_left]. apply IH. apply serve_all_items; [done|].
  destruct r; try done.
  - intros dedup Hok. split; [done|]. cbn.
    by apply validate_toppings_clean in Hok as [_ Hv].
  - by destruct it.
Qed.

Lemma serve_all_qty_ok (rs : list Request) (st : Store.t) :
  Forall request_well_formed rs →
  all_items (fun it => qty_ok (item_qty it)) st →
  all_items (fun it => qty_ok (item_qty it)) (serve_all rs st).
Proof.
  unfold serve_all. intros Hwf. revert st.
  induction Hwf as [|r rs Hr _ IH]; intros st Hst; [done|].
  cbn [fold_left]. apply IH. apply serve_all_items; [done|].
  destruct r; try done.
  intros it _. by destruct it.
Qed.

(** Only well-formed drinks and quantities get into a cart: whatever
    requests are served from the empty store, no cart holds the placeholder
    drink and every pizza carries catalog toppings; when the quantities of
    the requests respect their bounds, so do those of all stored items, and
    [get_cart] shows every stored cart with the exact decimal amounts on
    each line. *)
Theorem served_items_well_formed (rs : list Request) :
  let st := serve_all rs Store.empty in
  all_items (fun it => real_item it ∧ item_valid it) st
  ∧ (Forall request_well_formed rs →
     all_items (fun it => qty_ok (item_qty it)) st
     ∧ ∀ cart_id cart, Store.CARTS st !! cart_id = Some cart →
         ∃ totals,
           compute_totals cart = Ok totals
           ∧ get_cart cart_id st
             = (Ok (PricedCart.mk (Cart.cart_id cart)
                      (exact_line <$> Cart.items cart), totals), st)).
Proof.
  intros st. subst st.
  pose proof (serve_all_real_valid rs _ (all_items_empty _)) as Hreal.
  split; [done|]. intros Hwf.
  pose proof (serve_all_qty_ok rs _ Hwf (all_items_empty _)) as Hqty.
  split; [done|]. intros cart_id cart Hcart.
  assert (Forall item_valid (Cart.items cart)) as Hv.
  { eapply Forall_impl; [by eapply Hreal|]. by intros it [_ Hit]. }
  destruct (compute_totals_valid cart Hv) as [totals Htotals].
  exists totals. split; [done|].
  unfold get_cart. rewrite Hcart, Htotals. cbn [bind].
  unfold enrich_items_with_prices.
  by rewrite (enrich_loop_exact _ _ Hv (Hqty _ _ Hcart)).
Qed.

Lemma served_items_well_formed_witness :
  ∃ totals,
    get_cart "cart_3f2a9c0b7d41"
      (serve_all
         [ CreateCart sample_uuid4_hex;
           AddPizza "cart_3f2a9c0b7d41"
             (CartPizzaItem.mk "Custom Pizza"
                (sample_pizza ["ham"; "bacon"; "ham"]%string) 3);
           AddDrink "cart_3f2a9c0b7d41" (CartDrinkItem.mk drink_none 1) ]
         Store.empty)
    = (Ok (PricedCart.mk "cart_3f2a9c0b7d41"
             [ PricedItem.mk
                 (Pizza (CartPizzaItem.mk "Custom Pizza"
                           (sample_pizza ["ham"; "bacon"]%string) 3))
                 21.45 64.35 ], totals),
       serve_all
         [ CreateCart sample_uuid4_hex;
           AddPizza "cart_3f2a9c0b7d41"
             (CartPizzaItem.mk "Custom Pizza"
                (sample_pizza ["ham"; "bacon"; "ham"]%string) 3);
           AddDrink "cart_3f2a9c0b7d41" (CartDrinkItem.mk drink_none 1) ]
         Store.empty).
Proof.
  destruct (proj2 (served_items_well_formed
                     [ CreateCart sample_uuid4_hex;
                       AddPizza "cart_3f2a9c0b7d41"
                         (CartPizzaItem.mk "Custom Pizza"
                            (sample_pizza ["ham"; "bacon"; "ham"]%string) 3);
                       AddDrink "cart_3f2a9c0b7d41"
                         (CartDrinkItem.mk drink_none 1) ]))
    as [_ Hget].
  - repeat constructor; cbn; lia.
  - destruct (Hget "cart_3f2a9c0b7d41"%string
                (Cart.mk "cart_3f2a9c0b7d41"
                   [Pizza (CartPizzaItem.mk "Custom Pizza"
                             (sample_pizza ["ham"; "bacon"]%string) 3)]))
      as (totals & _ & Hcart).
    + vm_compute. reflexivity.
    + exists totals. rewrite Hcart. vm_compute. reflexivity.
Defined.

(** The reachable stores are those that sequences of requests lead to from
    the empty store. *)
Lemma reachable_serve_all (st : Store.t) :
  reachable st ↔ ∃ rs, st = serve_all rs Store.empty.
Proof.
  split.
  - induction 1 as [|st r _ [rs ->]].
    + by exists [].
    + exists (rs ++ [r]). unfold serve_all. by rewrite fold_left_app.
  - intros [rs ->]. unfold serve_all.
    assert (reachable Store.empty) as Hstart by constructor.
    revert Hstart. generalize Store.empty.
    induction rs as [|r rs IH]; intros st Hst; [done|].
    cbn [fold_left]. apply IH. by constructor.
Qed.

Lemma serve_carts_kept (r : Request) (st : Store.t) (cart_id : string) :
  is_Some (Store.CARTS st !! cart_id) →
  is_Some (Store.CARTS (serve r st) !! cart_id).
Proof.
  intros Hk. destruct r; cbn [serve];
    unfold create_cart, get_cart, add_pizza, add_drink, update_qty,
      remove_item, clear_cart, place_order, get_order, Store.set_items;
    repeat case_match; cbn [snd Store.CARTS]; try done;
    rewrite lookup_insert; case_decide; eauto.
Qed.

Lemma serve_orders_kept (r : Request) (st : Store.t) (order_id : string) :
  is_Some (Store.ORDERS st !! order_id) →
  is_Some (Store.ORDERS (serve r st) !! order_id).
Proof.
  intros Hk. destruct r; cbn [serve];
    unfold create_cart, get_cart, add_pizza, add_drink, update_qty,
      remove_item, clear_cart, place_order, get_order, Store.set_items;
    repeat case_match; cbn [snd Store.ORDERS]; try done;
    rewrite lookup_insert; case_decide; eauto.
Qed.

(** Nothing is ever deleted: whatever requests are served, every cart
    identifier and every order identifier of the store is still there
    afterwards, and an order is still exactly the same unless one of the
    requests filed another order under its identifier. *)
Theorem nothing_deleted (rs : list Request) (st : Store.t) :
  (∀ cart_id, is_Some (Store.CARTS st !! cart_id) →
     is_Some (Store.CARTS (serve_all rs st) !! cart_id))
  ∧ (∀ order_id, is_Some (Store.ORDERS st !! order_id) →
       is_Some (Store.ORDERS (serve_all rs st) !! order_id))
  ∧ (∀ order_id order, Store.ORDERS st !! order_id = Some order →
       Forall (fun r => filed_under r ≠ Some order_id) rs →
       get_order order_id (serve_all rs st) = (Ok order, serve_all rs st)).
Proof.
  unfold serve_all. revert st.
  induction rs as [|r rs IH]; intros st.
  - cbn [fold_left]. split; [done|]. split; [done|].
    intros order_id order Ho _. unfold get_order. by rewrite Ho.
  - cbn [fold_left]. destruct (IH (serve r st)) as (IHc & IHo & IHg).
    split; [|split].
    + intros cart_id Hk. by apply IHc, serve_carts_kept.
    + intros order_id Hk. by apply IHo, serve_orders_kept.
    + intros order_id order Ho Hrs.
      inversion Hrs as [|? ? Hr Hrest]; subst.
      apply IHg; [|done]. by rewrite serve_orders.
Qed.

Lemma nothing_deleted_witness :
  ∃ order,
    get_order "order_9b1de2f4a6c8"
      (serve_all [ClearCart "cart_0123456789ab"; CreateCart sample_uuid4_hex]
         (snd (place_order sample_env (sample_request cash_payment)
                 (store_with two_small_pizzas))))
    = (Ok order,
       serve_all [ClearCart "cart_0123456789ab"; CreateCart sample_uuid4_hex]
         (snd (place_order sample_env (sample_request cash_payment)
                 (store_with two_small_pizzas))))
    ∧ OrderSummary.status order = "placed"%string.
Proof.
  eexists. split.
  - apply (proj2 (proj2 (nothing_deleted
                           [ClearCart "cart_0123456789ab";
                            CreateCart sample_uuid4_hex]
                           (snd (place_order sample_env
                                   (sample_request cash_payment)
                                   (store_with two_small_pizzas)))))).
    + vm_compute. reflexivity.
    + repeat constructor; discriminate.
  - reflexivity.
Defined.

Lemma mock_authorize_echo (now : datetime.t) (uuid4_hex : string)
    (payment : PaymentInfo.t) (asked : float)
    (auth_id : string) (amount : float) (card_last4 : option string) :
  mock_authorize now uuid4_hex payment asked
  = Ok (approved auth_id amount card_last4) →
  amount = asked.
Proof.
  unfold mock_authorize. destruct (validate_required payment); [|discriminate].
  cbn [bind]. repeat case_match; try discriminate;
    intros Heq; by apply approved_inj in Heq as (_ & <- & _).
Qed.

Lemma compute_totals_shape (cart : Cart.t) (totals : Totals.t) :
  compute_totals cart = Ok totals → ∃ subtotal, totals = totals_of subtotal.
Proof.
  unfold compute_totals. destruct (cart_subtotal cart) as [s|e];
    [|discriminate].
  intros Heq. apply Ok_inj in Heq. by exists s.
Qed.

Lemma priced_as_own_item (items : list CartItem) (lines : list PricedItem.t) :
  Forall2 priced_as items lines →
  Forall (fun line => priced_as (PricedItem.item line) line) lines.
Proof.
  induction 1 as [|it line items lines Hline _ IH]; constructor; [|done].
  destruct Hline as [Hitem Hrest]. by rewrite Hitem.
Qed.

Lemma serve_carts_well_kept (r : Request) (st : Store.t) :
  (∀ key cart, Store.CARTS st !! key = Some cart → cart_well_kept key cart) →
  ∀ key cart, Store.CARTS (serve r st) !! key = Some cart →
    cart_well_kept key cart.
Proof.
  intros Hst key cart. destruct r; cbn [serve];
    unfold create_cart, get_cart, add_pizza, add_drink, update_qty,
      remove_item, clear_cart, place_order, get_order, Store.set_items;
    repeat case_match; cbn [snd Store.CARTS]; try apply Hst;
    rewrite lookup_insert; case_decide; try apply Hst;
    intros [= <-]; subst key;
    try (split; [reflexivity | apply prefix_app]);
    match goal with
    | H : Store.CARTS st !! ?k = Some ?t |- _ =>
        destruct (Hst _ _ H) as [Hid Hprefix]; by split
    end.
Qed.

Lemma serve_orders_well_kept (r : Request) (st : Store.t) :
  (∀ key order, Store.ORDERS st !! key = Some order →
     order_well_kept key order) →
  ∀ key order, Store.ORDERS (serve r st) !! key = Some order →
    order_well_kept key order.
Proof.
  intros Hst key order.
  destruct r as [| | | | | | |env req|];
    try (cbn [serve];
         unfold create_cart, get_cart, add_pizza, add_drink, update_qty,
           remove_item, clear_cart, get_order, Store.set_items;
         repeat case_match; cbn [snd Store.ORDERS]; by apply Hst).
  cbn [serve]. unfold place_order.
  destruct (Store.CARTS st !! PlaceOrderRequest.cart_id req) as [cart|];
    [|by apply Hst].
  destruct (Cart.items cart) as [|it rest] eqn:Hitems; [by apply Hst|].
  destruct (compute_totals cart) as [totals|e] eqn:Htotals; [|by apply Hst].
  destruct (mock_authorize _ _ _ _) as [[auth_id amount last4|reason]|e]
    eqn:Hauth; try by apply Hst.
  destruct (enrich_order_items_priceable (Cart.items cart))
    as (lines & Hlines & Hpriced).
  { by eapply compute_totals_priceable. }
  rewrite <- Hitems, Hlines. cbn [snd Store.ORDERS].
  rewrite lookup_insert. case_decide; [|by apply Hst].
  intros [= <-]. subst key.
  apply mock_authorize_echo in Hauth as ->.
  split; [done|]. split; [apply prefix_app|]. split; [done|].
  cbn [OrderSummary.items OrderSummary.totals OrderSummary.payment].
  split.
  { intros ->. rewrite Hitems in Hpriced. inversion Hpriced. }
  split; [by eapply priced_as_own_item|].
  split; [by eapply compute_totals_shape|]. eauto.
Qed.

(** In every reachable store each cart is filed under its own identifier,
    which starts with ["cart_"], and each order is filed under its own
    identifier, which starts with ["order_"]; each order has the status
    ["placed"] and at least one line, prices every line from the item on that
    line, has a tax and a total derived from its subtotal, and carries an
    approval for exactly its total. *)
Theorem reachable_well_kept (st : Store.t) :
  reachable st →
  (∀ key cart, Store.CARTS st !! key = Some cart → cart_well_kept key cart)
  ∧ (∀ key order, Store.ORDERS st !! key = Some order →
       order_well_kept key order).
Proof.
  induction 1 as [|st r _ [IHc IHo]].
  - split; intros key x Hl; cbn in Hl; by rewrite lookup_empty in Hl.
  - split.
    + by apply serve_carts_well_kept.
    + by apply serve_orders_well_kept.
Qed.

Lemma reachable_well_kept_witness :
  cart_well_kept "cart_3f2a9c0b7d41" (Cart.mk "cart_3f2a9c0b7d41" [])
  ∧ ∃ order,
      Store.ORDERS store_after_cash_order !! "order_9b1de2f4a6c8"%string
      = Some order
      ∧ order_well_kept "order_9b1de2f4a6c8" order.
Proof.
  assert (reachable store_after_cash_order) as Hreach.
  { unfold store_after_cash_order, store_after_add_pizza.
    apply reachable_serve, reachable_serve, reachable_serve,
      reachable_start. }
  split.
  - apply (proj1 (reachable_well_kept store_after_cash_order Hreach)).
    vm_compute. reflexivity.
  - eexists. split.
    + vm_compute. reflexivity.
    + apply (proj2 (reachable_well_kept store_after_cash_order Hreach)).
      vm_compute. reflexivity.
Defined.

(** In a reachable store no request fails half-way: a request that is
    answered with an exception leaves the store exactly as it was, so every
    change of the store comes with a successful response. *)
Theorem reachable_atomic (st : Store.t) (r : Request) (e : HTTPException) :
  reachable st → response_error r st = Some e → serve r st = st.
Proof.
  intros Hreach. apply reachable_clean in Hreach as Hst.
  destruct r; cbn [serve response_error];
    unfold create_cart, get_cart, add_pizza, add_drink, update_qty,
      remove_item, clear_cart, place_order, get_order;
    repeat case_match; cbn [fst snd error_of]; try done;
    match goal with
    | |- error_of (cart_response ?c) = Some e → _ =>
        let Hv := fresh "Hv" in
        assert (Forall item_valid (Cart.items c)) as Hv;
        [ cbn [Cart.items];
          apply (Forall_impl clean_toppings);
          [clean_items Hst | apply clean_toppings_valid]
        | destruct (cart_response_valid c Hv) as [totals ->]; discriminate ]
    end.
Qed.

Lemma reachable_atomic_witness :
  serve (AddPizza "cart_3f2a9c0b7d41"
           (CartPizzaItem.mk "Custom Pizza"
              (sample_pizza ["ham"; "tofu"]%string) 1))
    store_after_add_pizza
  = store_after_add_pizza.
Proof.
  apply (reachable_atomic store_after_add_pizza _ (InvalidTopping "tofu")).
  - unfold store_after_add_pizza.
    apply reachable_serve, reachable_serve, reachable_start.
  - vm_compute. reflexivity.
Defined.
